(** * HRDESK: the table-based authentication module (src/lib/tableAuth.ts)

    A shallow embedding of [tableLogin], [tableLogout], [getSessionUser],
    [createTableUser], [updatePassword] and [generateSessionToken], and the
    properties the specification states about them.

    Layout:
    - [Js]: the JavaScript built-ins the module calls (string case mapping
      and trimming, number formatting, padding, truthiness, dates);
    - the rows of the three remote tables, the browser's localStorage and the
      sources of randomness, gathered in [World];
    - [Eff]: a state-and-exception monad for [async] functions, with the
      remote client's calls as primitives;
    - the five exported operations, written statement by statement after the
      TypeScript;
    - the properties. *)

From Stdlib Require Import ZArith NArith List String Ascii Bool Lia.
From Stdlib.Strings Require Import Byte.
From stdpp Require Import base gmap strings list.

Local Open Scope string_scope.
Local Open Scope list_scope.

(* ===================================================================== *)
(** * JavaScript built-ins *)
(* ===================================================================== *)

(** Strings are sequences of code units.  The embedding covers the code units
    U+0000 to U+00FF (one [ascii] each, read as Latin-1): on those,
    [String.prototype.toLowerCase] maps A-Z and the accented capitals
    U+00C0-U+00DE (U+00D7, the multiplication sign, apart) to the letter 32
    places further, and [String.prototype.trim] strips TAB, LF, VT, FF, CR,
    SPACE and NO-BREAK SPACE. *)
Module Js.

Definition is_upper (c : ascii) : bool :=
  let n := N_of_ascii c in
  ((65 <=? n) && (n <=? 90) ||
   (192 <=? n) && (n <=? 222) && negb (n =? 215))%N.

Definition lower (c : ascii) : ascii :=
  if is_upper c then ascii_of_N (N_of_ascii c + 32) else c.

Definition is_space (c : ascii) : bool :=
  let n := N_of_ascii c in
  ((9 <=? n) && (n <=? 13) || (n =? 32) || (n =? 160))%N.

Fixpoint toLowerCase (s : string) : string :=
  match s with
  | EmptyString => EmptyString
  | String c s' => String (lower c) (toLowerCase s')
  end.

Fixpoint trimStart (s : string) : string :=
  match s with
  | EmptyString => EmptyString
  | String c s' => if is_space c then trimStart s' else s
  end.

Fixpoint trimEnd (s : string) : string :=
  match s with
  | EmptyString => EmptyString
  | String c s' =>
      match trimEnd s' with
      | EmptyString => if is_space c then EmptyString else String c EmptyString
      | t => String c t
      end
  end.

Definition trim (s : string) : string := trimEnd (trimStart s).

(** [all_space s]: every code unit of [s] is white space. *)
Fixpoint all_space (s : string) : bool :=
  match s with
  | EmptyString => true
  | String c s' => is_space c && all_space s'
  end.

(** [same_letters a b]: same length, and position by position the same code
    unit up to letter case. *)
Fixpoint same_letters (a b : string) : bool :=
  match a, b with
  | EmptyString, EmptyString => true
  | String x a', String y b' => Ascii.eqb (lower x) (lower y) && same_letters a' b'
  | _, _ => false
  end.

(** ** Truthiness *)

(** A string value that may be [null]/[undefined]: truthy when present and
    not empty. [truthy_string] returns the string in that case. *)
Definition truthy_string (v : option string) : option string :=
  match v with
  | Some EmptyString => None
  | Some s => Some s
  | None => None
  end.

(** A boolean value that may be [null]. *)
Definition truthy_bool (v : option bool) : bool :=
  match v with
  | Some b => b
  | None => false
  end.

(** [x || null] on an optional string property. *)
Definition or_null (v : option string) : option string := truthy_string v.

(** ** Number.prototype.toString(16) and String.prototype.padStart *)

Definition hex_digit (d : N) : ascii :=
  match d with
  | 0 => "0" | 1 => "1" | 2 => "2" | 3 => "3" | 4 => "4" | 5 => "5"
  | 6 => "6" | 7 => "7" | 8 => "8" | 9 => "9" | 10 => "a" | 11 => "b"
  | 12 => "c" | 13 => "d" | 14 => "e" | _ => "f"
  end%N%char.

(** Digits of [n] in base 16, most significant first, written in front of
    [acc]; [fuel] bounds the number of digits after the first. *)
Fixpoint to_base16 (fuel : nat) (n : N) (acc : string) : string :=
  let acc' := String (hex_digit (n mod 16)) acc in
  match fuel with
  | O => acc'
  | S fuel' => if (n / 16 =? 0)%N then acc' else to_base16 fuel' (n / 16) acc'
  end.

Definition toString16 (n : N) : string :=
  to_base16 (N.to_nat (N.log2 n)) n EmptyString.

Fixpoint replicate_char (k : nat) (c : ascii) : string :=
  match k with
  | O => EmptyString
  | S k' => String c (replicate_char k' c)
  end.

(** [s.padStart(len, c)] for a one-character filler. *)
Definition padStart (len : nat) (c : ascii) (s : string) : string :=
  replicate_char (len - String.length s) c +:+ s.

(** [list.join('')]. *)
Fixpoint join (l : list string) : string :=
  match l with
  | [] => EmptyString
  | s :: l' => s +:+ join l'
  end.

(** ** Dates *)

(** A [Date] is its time value, milliseconds since the epoch (UTC). *)
Definition ms_per_day : Z := 86400000.

(** The proleptic Gregorian date (year, month, day) of a day number counted
    from 1970-01-01. *)
Definition civil_from_days (days : Z) : Z * Z * Z :=
  (let z := days + 719468 in
  let era := z / 146097 in
  let doe := z - era * 146097 in
  let yoe := (doe - doe / 1460 + doe / 36524 - doe / 146096) / 365 in
  let doy := doe - (365 * yoe + yoe / 4 - yoe / 100) in
  let mp := (5 * doy + 2) / 153 in
  let d := doy - (153 * mp + 2) / 5 + 1 in
  let m := if mp <? 10 then mp + 3 else mp - 9 in
  let y := yoe + era * 400 + (if m <=? 2 then 1 else 0) in
  (y, m, d))%Z.

Definition dec_digit (d : Z) : ascii := hex_digit (Z.to_N d).

(** The [width] last decimal digits of [n]. *)
Fixpoint dec_padded (width : nat) (n : Z) (acc : string) : string :=
  match width with
  | O => acc
  | S width' => dec_padded width' (n / 10)%Z (String (dec_digit (n mod 10)%Z) acc)
  end.

(** [date.toISOString().split('T')[0]]: the date part, four-digit years
    plain and the others signed with six digits. *)
Definition toISODate (t : Z) : string :=
  let '(y, m, d) := civil_from_days (t / ms_per_day)%Z in
  let year :=
    if ((0 <=? y) && (y <=? 9999))%Z then dec_padded 4 y EmptyString
    else String (if (y <? 0)%Z then "-" else "+")%char (dec_padded 6 (Z.abs y) EmptyString) in
  year +:+ "-" +:+ dec_padded 2 m EmptyString +:+ "-" +:+ dec_padded 2 d EmptyString.

(** The local time zone of the host, as the two offsets (local time minus
    UTC, in milliseconds) the language reads from it: the one in force at a
    UTC time value, and the one a local time value is read with (where a
    clock change repeats or skips local times, the host says which). *)
Record TimeZone : Type := mkTimeZone {
  offset_at_utc : Z -> Z;
  offset_at_local : Z -> Z
}.

(** A zone whose clocks never change, [offset] milliseconds ahead of UTC. *)
Definition fixed_zone (offset : Z) : TimeZone :=
  mkTimeZone (fun _ => offset) (fun _ => offset).

(** [date.setDate(date.getDate() + 7)]: the time value is taken to local
    time, moved seven calendar days on at the same time of day, and taken
    back to UTC with the offset in force there.  (The time values [new Date()]
    gives are far from the ends of the range of [Date], so nothing is
    clipped.) *)
Definition plus_seven_days (zone : TimeZone) (t : Z) : Z :=
  (let local := t + offset_at_utc zone t in
   let moved := local + 7 * ms_per_day in
   moved - offset_at_local zone moved)%Z.

End Js.

(* ===================================================================== *)
(** * Data model *)
(* ===================================================================== *)

(** The role column, [('admin' | 'hr' | 'employee')]. *)
Inductive Role : Type := admin | hr | employee.

(** The roles [createTableUser] accepts, [('hr' | 'employee')]. *)
Inductive NewRole : Type := new_hr | new_employee.

Definition role_of_new (r : NewRole) : Role :=
  match r with new_hr => hr | new_employee => employee end.

(** A row of [profiles] (the columns the module reads or writes). *)
Record Profile : Type := mkProfile {
  p_id : string;
  p_user_id : string;
  p_email : string;
  p_first_name : string;
  p_last_name : string;
  p_password_hash : option string;
  p_phone : option string;
  p_department_id : option string;
  p_designation_id : option string;
  p_date_of_birth : option string;
  p_joining_date : string;
  p_employee_id : option string;
  p_reporting_manager : option string
}.

(** A row of [user_roles]. *)
Record RoleRow : Type := mkRoleRow {
  r_user_id : string;
  r_role : Role
}.

(** A row of [user_sessions]; [s_expires_at] is the time value of the stored
    timestamp. *)
Record SessionRow : Type := mkSessionRow {
  s_profile_id : string;
  s_session_token : string;
  s_expires_at : Z
}.

(** [interface TableUser]. *)
Record TableUser : Type := mkTableUser {
  tu_id : string;
  tu_profileId : string;
  tu_email : string;
  tu_firstName : string;
  tu_lastName : string;
  tu_role : Role
}.

(** [interface LoginResult]. *)
Record LoginResult : Type := mkLoginResult {
  lr_success : bool;
  lr_user : option TableUser;
  lr_error : option string
}.

(** [interface CreateUserResult]. *)
Record CreateUserResult : Type := mkCreateUserResult {
  cr_success : bool;
  cr_userId : option string;
  cr_profileId : option string;
  cr_error : option string
}.

(** The result of [updatePassword], [{ success: boolean; error?: string }]. *)
Record UpdateResult : Type := mkUpdateResult {
  ur_success : bool;
  ur_error : option string
}.

(** The optional [additionalData] argument of [createTableUser]. *)
Record AdditionalData : Type := mkAdditionalData {
  ad_phone : option string;
  ad_department_id : option string;
  ad_designation_id : option string;
  ad_date_of_birth : option string;
  ad_joining_date : option string;
  ad_employee_id : option string;
  ad_reporting_manager : option string
}.

(** [additionalData?.field]. *)
Definition field_of (additionalData : option AdditionalData)
    (field : AdditionalData -> option string) : option string :=
  match additionalData with
  | Some a => field a
  | None => None
  end.

(* ===================================================================== *)
(** * The world outside the module *)
(* ===================================================================== *)

(** What a remote call does when it is made: it completes, it resolves to an
    error, or the awaited promise rejects. *)
Inductive Fault : Type :=
  | Completes
  | Errors (message : string)
  | Rejects.

(** What [localStorage.setItem] does when it is called: it stores the value,
    or it throws because the quota is exceeded. *)
Inductive StorageFault : Type :=
  | Stored
  | QuotaExceeded.

(** The remote tables and stored procedures, the browser's localStorage, the
    clock and the sources of randomness.
    - [faults] scripts the remote calls, one entry per call, and [calls]
      counts the calls made so far.
    - [rng] with [rng_pos] is [crypto.getRandomValues], [uuids] with
      [uuid_pos] is [crypto.randomUUID], [db_ids] with [db_id_pos] is the
      primary key the database gives a new [profiles] row.
    - [hash_password] and [verify_password] are the two stored procedures
      ([None] is SQL NULL).
    - [zone] is the local time zone of the browser.
    - [storage_faults] scripts the [setItem] calls, one entry per call, and
      [storage_calls] counts the calls made so far. *)
#[projections(primitive)]
Record World : Type := mkWorld {
  profiles : list Profile;
  user_roles : list RoleRow;
  user_sessions : list SessionRow;
  localStorage : gmap string string;
  faults : nat -> Fault;
  calls : nat;
  now : Z;
  rng : nat -> byte;
  rng_pos : nat;
  uuids : nat -> string;
  uuid_pos : nat;
  db_ids : nat -> string;
  db_id_pos : nat;
  hash_password : string -> option string;
  verify_password : string -> string -> option bool;
  zone : Js.TimeZone;
  storage_faults : nat -> StorageFault;
  storage_calls : nat
}.

Definition set_profiles (v : list Profile) (w : World) : World :=
  mkWorld v (user_roles w) (user_sessions w) (localStorage w) (faults w)
    (calls w) (now w) (rng w) (rng_pos w) (uuids w) (uuid_pos w) (db_ids w)
    (db_id_pos w) (hash_password w) (verify_password w)
    (zone w) (storage_faults w) (storage_calls w).

Definition set_user_roles (v : list RoleRow) (w : World) : World :=
  mkWorld (profiles w) v (user_sessions w) (localStorage w) (faults w)
    (calls w) (now w) (rng w) (rng_pos w) (uuids w) (uuid_pos w) (db_ids w)
    (db_id_pos w) (hash_password w) (verify_password w)
    (zone w) (storage_faults w) (storage_calls w).

Definition set_user_sessions (v : list SessionRow) (w : World) : World :=
  mkWorld (profiles w) (user_roles w) v (localStorage w) (faults w) (calls w)
    (now w) (rng w) (rng_pos w) (uuids w) (uuid_pos w) (db_ids w)
    (db_id_pos w) (hash_password w) (verify_password w)
    (zone w) (storage_faults w) (storage_calls w).

Definition set_localStorage (v : gmap string string) (w : World) : World :=
  mkWorld (profiles w) (user_roles w) (user_sessions w) v (faults w) (calls w)
    (now w) (rng w) (rng_pos w) (uuids w) (uuid_pos w) (db_ids w)
    (db_id_pos w) (hash_password w) (verify_password w)
    (zone w) (storage_faults w) (storage_calls w).

Definition set_faults (v : nat -> Fault) (w : World) : World :=
  mkWorld (profiles w) (user_roles w) (user_sessions w) (localStorage w) v
    (calls w) (now w) (rng w) (rng_pos w) (uuids w) (uuid_pos w) (db_ids w)
    (db_id_pos w) (hash_password w) (verify_password w)
    (zone w) (storage_faults w) (storage_calls w).

Definition set_calls (v : nat) (w : World) : World :=
  mkWorld (profiles w) (user_roles w) (user_sessions w) (localStorage w)
    (faults w) v (now w) (rng w) (rng_pos w) (uuids w) (uuid_pos w) (db_ids w)
    (db_id_pos w) (hash_password w) (verify_password w)
    (zone w) (storage_faults w) (storage_calls w).

Definition set_now (v : Z) (w : World) : World :=
  mkWorld (profiles w) (user_roles w) (user_sessions w) (localStorage w)
    (faults w) (calls w) v (rng w) (rng_pos w) (uuids w) (uuid_pos w)
    (db_ids w) (db_id_pos w) (hash_password w) (verify_password w)
    (zone w) (storage_faults w) (storage_calls w).

Definition set_rng_pos (v : nat) (w : World) : World :=
  mkWorld (profiles w) (user_roles w) (user_sessions w) (localStorage w)
    (faults w) (calls w) (now w) (rng w) v (uuids w) (uuid_pos w) (db_ids w)
    (db_id_pos w) (hash_password w) (verify_password w)
    (zone w) (storage_faults w) (storage_calls w).

Definition set_uuid_pos (v : nat) (w : World) : World :=
  mkWorld (profiles w) (user_roles w) (user_sessions w) (localStorage w)
    (faults w) (calls w) (now w) (rng w) (rng_pos w) (uuids w) v (db_ids w)
    (db_id_pos w) (hash_password w) (verify_password w)
    (zone w) (storage_faults w) (storage_calls w).

Definition set_db_id_pos (v : nat) (w : World) : World :=
  mkWorld (profiles w) (user_roles w) (user_sessions w) (localStorage w)
    (faults w) (calls w) (now w) (rng w) (rng_pos w) (uuids w) (uuid_pos w)
    (db_ids w) v (hash_password w) (verify_password w)
    (zone w) (storage_faults w) (storage_calls w).

Definition set_zone (v : Js.TimeZone) (w : World) : World :=
  mkWorld (profiles w) (user_roles w) (user_sessions w) (localStorage w)
    (faults w) (calls w) (now w) (rng w) (rng_pos w) (uuids w) (uuid_pos w)
    (db_ids w) (db_id_pos w) (hash_password w) (verify_password w)
    v (storage_faults w) (storage_calls w).

Definition set_storage_faults (v : nat -> StorageFault) (w : World) : World :=
  mkWorld (profiles w) (user_roles w) (user_sessions w) (localStorage w)
    (faults w) (calls w) (now w) (rng w) (rng_pos w) (uuids w) (uuid_pos w)
    (db_ids w) (db_id_pos w) (hash_password w) (verify_password w)
    (zone w) v (storage_calls w).

Definition set_storage_calls (v : nat) (w : World) : World :=
  mkWorld (profiles w) (user_roles w) (user_sessions w) (localStorage w)
    (faults w) (calls w) (now w) (rng w) (rng_pos w) (uuids w) (uuid_pos w)
    (db_ids w) (db_id_pos w) (hash_password w) (verify_password w)
    (zone w) (storage_faults w) v.

(** Two worlds hold the same data when the three tables and localStorage
    agree; the fault and storage scripts, the clock, the time zone and the
    random sources are free. *)
Definition same_stores (w w' : World) : Prop :=
  profiles w' = profiles w /\ user_roles w' = user_roles w /\
  user_sessions w' = user_sessions w /\ localStorage w' = localStorage w.

(* ===================================================================== *)
(** * Effects: state and exceptions *)
(* ===================================================================== *)

(** An [async] function either returns a value or throws (its promise
    rejects); either way it may have changed the world on its way. *)
Inductive Outcome (A : Type) : Type :=
  | Returned (a : A)
  | Thrown.
Arguments Returned {A} a.
Arguments Thrown {A}.

Definition Eff (A : Type) : Type := World -> Outcome A * World.

Definition ret {A : Type} (a : A) : Eff A := fun w => (Returned a, w).

Definition bind {A B : Type} (m : Eff A) (k : A -> Eff B) : Eff B :=
  fun w =>
    match m w with
    | (Returned a, w') => k a w'
    | (Thrown, w') => (Thrown, w')
    end.

(** [throw]: also what reading a property of [null] does. *)
Definition throw {A : Type} : Eff A := fun w => (Thrown, w).

(** [value.property] where [value] may be [null]: a TypeError then. *)
Definition property_of {A : Type} (value : option A) : Eff A :=
  match value with
  | Some a => ret a
  | None => throw
  end.

(** [try { body } catch (error) { handler }]: what [body] did to the world
    before it threw stays done. *)
Definition try_catch {A : Type} (body handler : Eff A) : Eff A :=
  fun w =>
    match body w with
    | (Returned a, w') => (Returned a, w')
    | (Thrown, w') => handler w'
    end.

Notation "'let*' x ':=' m 'in' k" := (bind m (fun x => k))
  (at level 10, x name, m at level 100, k at level 200).
Notation "m ';;;' k" := (bind m (fun _ => k))
  (at level 100, k at level 200, right associativity).

(** ** The remote client *)

(** What a call to the client resolves to, [{ data, error }]: exactly one of
    the two is set for an insert or a stored procedure; a [maybeSingle]
    lookup that matches no row has neither. *)
Record Reply (A : Type) : Type := mkReply {
  data : option A;
  error : option string
}.
Arguments mkReply {A} data error.
Arguments data {A} r.
Arguments error {A} r.

Definition reply_data {A : Type} (a : A) : Reply A := mkReply (Some a) None.
Definition reply_none {A : Type} : Reply A := mkReply None None.
Definition reply_error {A : Type} (message : string) : Reply A :=
  mkReply None (Some message).

(** [if (error)]: the error object, when there is one, is truthy. *)
Definition is_set {A : Type} (v : option A) : bool :=
  match v with Some _ => true | None => false end.

(** The [k]-th remote call from now on, as the fault script has it. *)
Definition fault_at (k : nat) (w : World) : Fault := faults w (k + calls w).

(** The world once one more remote call is made. *)
Definition consume (w : World) : World := set_calls (S (calls w)) w.

(** A fault script given by its first entries; every later call completes. *)
Definition script (entries : list Fault) : nat -> Fault :=
  fun k => nth k entries Completes.

(** The world [w] with [entries] as the outcomes of the next remote calls. *)
Definition with_faults (entries : list Fault) (w : World) : World :=
  set_calls 0 (set_faults (script entries) w).

(** One remote call: the next entry of the fault script decides whether the
    request [act] reaches the service.  A call that errs or rejects leaves
    the tables as they were. *)
Definition remote {A : Type} (act : World -> Reply A * World) : Eff (Reply A) :=
  fun w =>
    match fault_at 0 w with
    | Completes => let '(r, w') := act (consume w) in (Returned r, w')
    | Errors message => (Returned (reply_error message), consume w)
    | Rejects => (Thrown, consume w)
    end.

(** [.maybeSingle()]: no row is no data and no error, one row is that row,
    several rows are an error. *)
Definition maybeSingle {A : Type} (rows : list A) : Reply A :=
  match rows with
  | [] => reply_none
  | [row] => reply_data row
  | _ => reply_error "JSON object requested, multiple (or no) rows returned"
  end.

Definition profiles_with_email (e : string) (rows : list Profile) : list Profile :=
  List.filter (fun p => String.eqb (p_email p) e) rows.

Definition profiles_with_id (i : string) (rows : list Profile) : list Profile :=
  List.filter (fun p => String.eqb (p_id p) i) rows.

Definition roles_of_user (u : string) (rows : list RoleRow) : list RoleRow :=
  List.filter (fun r => String.eqb (r_user_id r) u) rows.

Definition sessions_with_token (t : string) (rows : list SessionRow) : list SessionRow :=
  List.filter (fun s => String.eqb (s_session_token s) t) rows.

(** [from('profiles').select(..).eq('email', e).maybeSingle()] *)
Definition select_profile_by_email (e : string) : Eff (Reply Profile) :=
  remote (fun w => (maybeSingle (profiles_with_email e (profiles w)), w)).

(** [from('profiles').select(..).eq('id', i).maybeSingle()] *)
Definition select_profile_by_id (i : string) : Eff (Reply Profile) :=
  remote (fun w => (maybeSingle (profiles_with_id i (profiles w)), w)).

(** [from('user_roles').select('role').eq('user_id', u).maybeSingle()] *)
Definition select_role (u : string) : Eff (Reply RoleRow) :=
  remote (fun w => (maybeSingle (roles_of_user u (user_roles w)), w)).

(** [from('user_sessions').select(..).eq('session_token', t).maybeSingle()] *)
Definition select_session (t : string) : Eff (Reply SessionRow) :=
  remote (fun w => (maybeSingle (sessions_with_token t (user_sessions w)), w)).

(** [from('user_sessions').insert(row)] *)
Definition insert_session (row : SessionRow) : Eff (Reply unit) :=
  remote (fun w => (reply_data tt, set_user_sessions (user_sessions w ++ [row]) w)).

(** [from('user_sessions').delete().eq('session_token', t)] *)
Definition delete_sessions (t : string) : Eff (Reply unit) :=
  remote (fun w =>
    (reply_data tt,
     set_user_sessions
       (List.filter (fun s => negb (String.eqb (s_session_token s) t)) (user_sessions w)) w)).

(** [from('profiles').insert(row).select('id').single()]: the database
    gives the row its primary key and the call returns it. *)
Definition insert_profile (row : string -> Profile) : Eff (Reply string) :=
  remote (fun w =>
    let new_id := db_ids w (db_id_pos w) in
    (reply_data new_id,
     set_db_id_pos (S (db_id_pos w)) (set_profiles (profiles w ++ [row new_id]) w))).

(** [from('profiles').delete().eq('id', i)] *)
Definition delete_profile (i : string) : Eff (Reply unit) :=
  remote (fun w =>
    (reply_data tt,
     set_profiles (List.filter (fun p => negb (String.eqb (p_id p) i)) (profiles w)) w)).

Definition with_password_hash (h : string) (p : Profile) : Profile :=
  mkProfile (p_id p) (p_user_id p) (p_email p) (p_first_name p) (p_last_name p)
    (Some h) (p_phone p) (p_department_id p) (p_designation_id p)
    (p_date_of_birth p) (p_joining_date p) (p_employee_id p) (p_reporting_manager p).

(** [from('profiles').update({ password_hash: h }).eq('id', i)]: every
    matching row is updated; matching none is no error. *)
Definition update_password_hash (i h : string) : Eff (Reply unit) :=
  remote (fun w =>
    (reply_data tt,
     set_profiles
       (List.map (fun p => if String.eqb (p_id p) i then with_password_hash h p else p)
          (profiles w)) w)).

(** [from('user_roles').insert(row)] *)
Definition insert_role (row : RoleRow) : Eff (Reply unit) :=
  remote (fun w => (reply_data tt, set_user_roles (user_roles w ++ [row]) w)).

(** [rpc('hash_password', { password })] *)
Definition rpc_hash_password (password : string) : Eff (Reply string) :=
  remote (fun w => (mkReply (hash_password w password) None, w)).

(** [rpc('verify_password', { password, password_hash })] *)
Definition rpc_verify_password (password password_hash : string) : Eff (Reply bool) :=
  remote (fun w => (mkReply (verify_password w password password_hash) None, w)).

(** ** The browser *)

Definition hrms_session_token : string := "hrms_session_token".
Definition hrms_user_id : string := "hrms_user_id".

Definition localStorage_getItem (key : string) : Eff (option string) :=
  fun w => (Returned (localStorage w !! key), w).

(** The [k]-th [setItem] call from now on, as the storage script has it. *)
Definition storage_at (k : nat) (w : World) : StorageFault :=
  storage_faults w (k + storage_calls w).

(** The world once one more [setItem] call is made. *)
Definition consume_storage (w : World) : World :=
  set_storage_calls (S (storage_calls w)) w.

(** A storage script given by its first entries; every later call stores. *)
Definition storage_script (entries : list StorageFault) : nat -> StorageFault :=
  fun k => nth k entries Stored.

(** The world [w] with [entries] as the outcomes of the next [setItem]
    calls. *)
Definition with_storage (entries : list StorageFault) (w : World) : World :=
  set_storage_calls 0 (set_storage_faults (storage_script entries) w).

(** [localStorage.setItem(key, value)]: a call that throws
    (QuotaExceededError) stores nothing.  The storage object itself is there:
    [getItem] and [removeItem] do not throw. *)
Definition localStorage_setItem (key value : string) : Eff unit :=
  fun w =>
    match storage_at 0 w with
    | Stored =>
        (Returned tt,
         set_localStorage (<[key := value]> (localStorage w)) (consume_storage w))
    | QuotaExceeded => (Thrown, consume_storage w)
    end.

Definition localStorage_removeItem (key : string) : Eff unit :=
  fun w => (Returned tt, set_localStorage (delete key (localStorage w)) w).

(** [new Date()] *)
Definition new_Date : Eff Z := fun w => (Returned (now w), w).

(** [date.setDate(date.getDate() + 7)] in the browser's time zone; the value
    is the new time value of [date]. *)
Definition setDate_plus_seven (date : Z) : Eff Z :=
  fun w => (Returned (Js.plus_seven_days (zone w) date), w).

(** The next [n] bytes of the random source. *)
Definition random_bytes (n : nat) (w : World) : list byte :=
  List.map (rng w) (seq (rng_pos w) n).

(** [crypto.getRandomValues(new Uint8Array(n))] *)
Definition getRandomValues (n : nat) : Eff (list byte) :=
  fun w => (Returned (random_bytes n w), set_rng_pos (rng_pos w + n) w).

(** [crypto.randomUUID()] *)
Definition randomUUID : Eff string :=
  fun w => (Returned (uuids w (uuid_pos w)), set_uuid_pos (S (uuid_pos w)) w).

(* ===================================================================== *)
(** * The module: src/lib/tableAuth.ts *)
(* ===================================================================== *)

(** [console.error] calls are left out: nothing reads the console. *)

(** [byte => byte.toString(16).padStart(2, '0')] *)
Definition byte_hex (b : byte) : string :=
  Js.padStart 2 "0" (Js.toString16 (Byte.to_N b)).

(** The pure part of [generateSessionToken]:
    [Array.from(array, byte => ..).join('')]. *)
Definition hex_of_bytes (array : list byte) : string :=
  Js.join (List.map byte_hex array).

Definition generateSessionToken : Eff string :=
  let* array := getRandomValues 32 in
  ret (hex_of_bytes array).

Definition login_error (message : string) : LoginResult :=
  mkLoginResult false None (Some message).

Definition tableLogin (email password : string) : Eff LoginResult :=
  try_catch
    (let* found := select_profile_by_email (Js.trim (Js.toLowerCase email)) in
     if is_set (error found) then
       ret (login_error "Login failed. Please try again.")
     else
       match data found with
       | None => ret (login_error "Invalid email or password")
       | Some profile =>
         match Js.truthy_string (p_password_hash profile) with
         | None =>
             ret (login_error "Account not properly configured. Please contact admin.")
         | Some password_hash =>
           let* verified := rpc_verify_password password password_hash in
           if is_set (error verified) then
             ret (login_error "Login failed. Please try again.")
           else if negb (Js.truthy_bool (data verified)) then
             ret (login_error "Invalid email or password")
           else
             let* roleReply := select_role (p_user_id profile) in
             match error roleReply, data roleReply with
             | None, Some roleData =>
               let* sessionToken := generateSessionToken in
               let* today := new_Date in
               let* expiresAt := setDate_plus_seven today in
               let* inserted :=
                 insert_session (mkSessionRow (p_id profile) sessionToken expiresAt) in
               if is_set (error inserted) then
                 ret (login_error "Failed to create session")
               else
                 localStorage_setItem hrms_session_token sessionToken ;;;
                 localStorage_setItem hrms_user_id (p_user_id profile) ;;;
                 ret (mkLoginResult true
                        (Some (mkTableUser (p_user_id profile) (p_id profile)
                                 (p_email profile) (p_first_name profile)
                                 (p_last_name profile) (r_role roleData)))
                        None)
             | _, _ => ret (login_error "User role not found")
             end
         end
       end)
    (ret (login_error "Login failed. Please try again.")).

Definition tableLogout : Eff unit :=
  let* sessionToken := localStorage_getItem hrms_session_token in
  match Js.truthy_string sessionToken with
  | Some token => let* _ := delete_sessions token in ret tt
  | None => ret tt
  end ;;;
  localStorage_removeItem hrms_session_token ;;;
  localStorage_removeItem hrms_user_id.

Definition getSessionUser : Eff (option TableUser) :=
  let* stored := localStorage_getItem hrms_session_token in
  match Js.truthy_string stored with
  | None => ret None
  | Some sessionToken =>
    try_catch
      (let* sessionReply := select_session sessionToken in
       match error sessionReply, data sessionReply with
       | None, Some session =>
         let* today := new_Date in
         if (s_expires_at session <? today)%Z then
           let* _ := delete_sessions sessionToken in
           localStorage_removeItem hrms_session_token ;;;
           localStorage_removeItem hrms_user_id ;;;
           ret None
         else
           let* profileReply := select_profile_by_id (s_profile_id session) in
           match error profileReply, data profileReply with
           | None, Some profile =>
             let* roleReply := select_role (p_user_id profile) in
             ret (Some (mkTableUser (p_user_id profile) (p_id profile)
                          (p_email profile) (p_first_name profile)
                          (p_last_name profile)
                          (match data roleReply with
                           | Some roleData => r_role roleData
                           | None => employee
                           end)))
           | _, _ => ret None
           end
       | _, _ =>
         localStorage_removeItem hrms_session_token ;;;
         localStorage_removeItem hrms_user_id ;;;
         ret None
       end)
      (ret None)
  end.

Definition create_error (message : string) : CreateUserResult :=
  mkCreateUserResult false None None (Some message).

(** The object [createTableUser] inserts into [profiles]; [new_id] is the
    primary key the database adds, [today] the value of [new Date()]. *)
Definition new_profile_row (email firstName lastName passwordHash userId : string)
    (additionalData : option AdditionalData) (today : Z) (new_id : string) : Profile :=
  mkProfile new_id userId (Js.trim (Js.toLowerCase email))
    firstName lastName (Some passwordHash)
    (Js.or_null (field_of additionalData ad_phone))
    (Js.or_null (field_of additionalData ad_department_id))
    (Js.or_null (field_of additionalData ad_designation_id))
    (Js.or_null (field_of additionalData ad_date_of_birth))
    (match Js.truthy_string (field_of additionalData ad_joining_date) with
     | Some joining_date => joining_date
     | None => Js.toISODate today
     end)
    (Js.or_null (field_of additionalData ad_employee_id))
    (Js.or_null (field_of additionalData ad_reporting_manager)).

Definition createTableUser (email password firstName lastName : string)
    (role : NewRole) (additionalData : option AdditionalData) : Eff CreateUserResult :=
  try_catch
    (let* existing := select_profile_by_email (Js.trim (Js.toLowerCase email)) in
     if is_set (data existing) then
       ret (create_error "Email already registered")
     else
       let* hashed := rpc_hash_password password in
       match error hashed, Js.truthy_string (data hashed) with
       | None, Some passwordHash =>
         let* userId := randomUUID in
         (* [new Date()] is read in the default of [joining_date] below *)
         let* today := new_Date in
         let* created :=
           insert_profile
             (new_profile_row email firstName lastName passwordHash userId
                additionalData today) in
         match error created with
         | Some message => ret (create_error message)
         | None =>
           let* assigned := insert_role (mkRoleRow userId (role_of_new role)) in
           if is_set (error assigned) then
             let* profile_id := property_of (data created) in
             let* _ := delete_profile profile_id in
             ret (create_error "Failed to assign role")
           else
             let* profile_id := property_of (data created) in
             ret (mkCreateUserResult true (Some userId) (Some profile_id) None)
         end
       | _, _ => ret (create_error "Failed to secure password")
       end)
    (ret (create_error "Failed to create user")).

Definition updatePassword (profileId newPassword : string) : Eff UpdateResult :=
  try_catch
    (let* hashed := rpc_hash_password newPassword in
     match error hashed, Js.truthy_string (data hashed) with
     | None, Some passwordHash =>
       let* updated := update_password_hash profileId passwordHash in
       match error updated with
       | Some message => ret (mkUpdateResult false (Some message))
       | None => ret (mkUpdateResult true None)
       end
     | _, _ => ret (mkUpdateResult false (Some "Failed to secure password"))
     end)
    (ret (mkUpdateResult false (Some "Failed to update password"))).

(* ===================================================================== *)
(** * Notions the properties are stated with *)
(* ===================================================================== *)

(** The specification's words for two e-mail addresses that are "equal up
    to case and surrounding whitespace": each is a core between two runs of
    white space, and the cores agree letter by letter up to case. *)
Definition equal_up_to_case_and_space (e1 e2 : string) : Prop :=
  exists l1 c1 r1 l2 c2 r2 : string,
    e1 = l1 +:+ c1 +:+ r1 /\ e2 = l2 +:+ c2 +:+ r2 /\
    Js.all_space l1 = true /\ Js.all_space r1 = true /\
    Js.all_space l2 = true /\ Js.all_space r2 = true /\
    Js.same_letters c1 c2 = true.

(** A lowercase hexadecimal digit, [0-9a-f]. *)
Definition is_lower_hex (c : ascii) : bool :=
  let n := N_of_ascii c in
  ((48 <=? n) && (n <=? 57) || (97 <=? n) && (n <=? 102))%N.

Fixpoint all_chars (p : ascii -> bool) (s : string) : bool :=
  match s with
  | EmptyString => true
  | String c s' => p c && all_chars p s'
  end.

(** The value of a lowercase hexadecimal digit, and the byte two of them
    spell: the inverse of [byte_hex], used to show it loses nothing. *)
Definition hex_value (c : ascii) : N :=
  let n := N_of_ascii c in
  (if n <? 97 then n - 48 else n - 87)%N.

Definition byte_unhex (s : string) : option byte :=
  match s with
  | String c1 (String c2 EmptyString) => Byte.of_N (16 * hex_value c1 + hex_value c2)
  | _ => None
  end.

(** The 32 bytes the next [generateSessionToken] draws. *)
Definition random32 (w : World) : list byte := random_bytes 32 w.

(** The Session row and the two localStorage entries a login writes. *)
Definition session_of (profile : Profile) (w : World) : SessionRow :=
  mkSessionRow (p_id profile) (hex_of_bytes (random32 w))
    (Js.plus_seven_days (zone w) (now w)).

Definition stored_login (profile : Profile) (w : World) : gmap string string :=
  <[hrms_user_id := p_user_id profile]>
    (<[hrms_session_token := hex_of_bytes (random32 w)]> (localStorage w)).

(** Both session-store keys are absent. *)
Definition session_store_cleared (w : World) : Prop :=
  localStorage w !! hrms_session_token = None /\
  localStorage w !! hrms_user_id = None.

(** ** A sample world *)

Definition sample_rng (n : nat) : byte :=
  match Byte.of_N (N.of_nat (7 * n + 1) mod 256) with
  | Some b => b
  | None => x00
  end.

Definition sample_hash (password : string) : option string :=
  Some ("hash:" +:+ password).

Definition sample_verify (password password_hash : string) : option bool :=
  Some (String.eqb ("hash:" +:+ password) password_hash).

Definition alice : Profile :=
  mkProfile "p-1" "u-1" "a@b.com" "Alice" "Ames" (Some "hash:secret")
    None None None None "2024-01-01" None None.

(** One account, [alice] with role [hr], nobody logged in; the browser is
    on UTC and its storage has room. *)
Definition sample_world : World :=
  mkWorld [alice] [mkRoleRow "u-1" hr] [] ∅ (script []) 0 1000
    sample_rng 0
    (fun n => "user-" +:+ Js.dec_padded 4 (Z.of_nat n) "") 0
    (fun n => "profile-" +:+ Js.dec_padded 4 (Z.of_nat n) "") 0
    sample_hash sample_verify
    (Js.fixed_zone 0) (storage_script []) 0.

(** [alice] logged in: the world after [tableLogin] with her password. *)
Definition logged_in_world : World :=
  snd (tableLogin "a@b.com" "secret" sample_world).

(** [alice]'s session a week and a day later: expired. *)
Definition expired_world : World :=
  set_now (1000 + 8 * Js.ms_per_day) logged_in_world.

(** A zone four hours behind UTC whose clocks go back an hour, to five
    hours behind, at the UTC time value [3 * ms_per_day]; a local time that
    occurs twice is read as the first of the two. *)
Definition autumn_zone : Js.TimeZone :=
  Js.mkTimeZone
    (fun t => if (t <? 3 * Js.ms_per_day)%Z then (-14400000)%Z else (-18000000)%Z)
    (fun t => if (t <? 3 * Js.ms_per_day - 14400000)%Z
              then (-14400000)%Z else (-18000000)%Z).

(** The sample world in that zone, and [alice] logged in there. *)
Definition autumn_world : World := set_zone autumn_zone sample_world.

Definition autumn_logged_in : World :=
  snd (tableLogin "a@b.com" "secret" autumn_world).

(** [alice] logged in, her row of [user_roles] gone. *)
Definition roleless_world : World := set_user_roles [] logged_in_world.

(** The token of [alice]'s session in [logged_in_world]. *)
Definition alice_token : string :=
  "01080f161d242b323940474e555c636a71787f868d949ba2a9b0b7bec5ccd3da".

Definition alice_session : SessionRow :=
  mkSessionRow "p-1" alice_token (1000 + 7 * Js.ms_per_day).

(** An optional attribute that is absent or the empty string. *)
Definition blank (v : option string) : Prop := v = None \/ v = Some "".

Definition blank_attributes (a : AdditionalData) : Prop :=
  blank (ad_phone a) /\ blank (ad_department_id a) /\ blank (ad_designation_id a) /\
  blank (ad_date_of_birth a) /\ blank (ad_joining_date a) /\
  blank (ad_employee_id a) /\ blank (ad_reporting_manager a).


(* ===================================================================== *)
(** * More JavaScript built-ins *)
(* ===================================================================== *)

(** Numbers are exact integers here; JavaScript's are doubles, which agree
    with them up to 2^53. *)
Module JsNum.

Definition is_digit (c : ascii) : bool :=
  let n := N_of_ascii c in ((48 <=? n) && (n <=? 57))%N.

Definition digit_value (c : ascii) : Z := (Z.of_N (N_of_ascii c) - 48)%Z.

(** The value of the longest prefix of decimal digits of [s], read after
    [acc], and whether there was a digit at all. *)
Fixpoint read_digits (s : string) (acc : Z) (seen : bool) : Z * bool :=
  match s with
  | String c s' =>
      if is_digit c then read_digits s' (10 * acc + digit_value c)%Z true
      else (acc, seen)
  | EmptyString => (acc, seen)
  end.

(** [parseInt(s, 10)]: leading white space is skipped, a sign is read, then
    the longest run of digits; [None] is NaN. *)
Definition parseInt10 (s : string) : option Z :=
  let body := Js.trimStart s in
  let '(negative, digits) :=
    match body with
    | String "-"%char rest => (true, rest)
    | String "+"%char rest => (false, rest)
    | _ => (false, body)
    end in
  match read_digits digits 0%Z false with
  | (value, true) => Some (if negative then (- value)%Z else value)
  | (_, false) => None
  end.

(** The decimal digits of [n], most significant first, written in front of
    [acc]. *)
Fixpoint to_base10 (fuel : nat) (n : N) (acc : string) : string :=
  let acc' := String (Js.hex_digit (n mod 10)) acc in
  match fuel with
  | O => acc'
  | S fuel' => if (n / 10 =? 0)%N then acc' else to_base10 fuel' (n / 10) acc'
  end.

(** [String(n)] for an integer. *)
Definition toString10 (n : Z) : string :=
  let digits := to_base10 (N.to_nat (N.log2 (Z.to_N (Z.abs n)))) (Z.to_N (Z.abs n)) "" in
  if (n <? 0)%Z then String "-" digits else digits.

(** [s.split(sep)] for a one-character separator. *)
Fixpoint split (sep : ascii) (s : string) : list string :=
  match s with
  | EmptyString => [EmptyString]
  | String c s' =>
      if Ascii.eqb c sep then EmptyString :: split sep s'
      else match split sep s' with
           | first :: others => String c first :: others
           | [] => [String c EmptyString]
           end
  end.

(** [Math.max(...values)] of a non-empty list given by its head and tail. *)
Definition max_of (first : Z) (others : list Z) : Z := fold_left Z.max others first.

End JsNum.

(* ===================================================================== *)
(** * The employees page (src/unnamed/part_002, AdminEmployees) *)
(* ===================================================================== *)

(** [interface Employee]; [department] and [designation] are the joined
    names. *)
Record Employee : Type := mkEmployee {
  e_id : string;
  e_user_id : string;
  e_employee_id : option string;
  e_first_name : string;
  e_last_name : string;
  e_email : string;
  e_phone : option string;
  e_employment_status : string;
  e_department_id : option string;
  e_designation_id : option string;
  e_date_of_birth : option string;
  e_joining_date : option string;
  e_department : option string;
  e_designation : option string;
  e_role : string;
  e_reporting_manager : option string
}.

(** [id.split('-')[1]] then [parseInt(numPart, 10)]; a missing second part
    is [undefined], which parses to NaN. *)
Definition employee_number (id : string) : option Z :=
  match nth_error (JsNum.split "-" id) 1 with
  | Some numPart => JsNum.parseInt10 numPart
  | None => None
  end.

(** The numbers of the ids of the form ["HTE-..."] that parse. *)
Definition existingIds (employees : list Employee) : list Z :=
  omap (fun e =>
          match Js.truthy_string (e_employee_id e) with
          | Some id => if String.prefix "HTE-" id then employee_number id else None
          | None => None
          end) employees.

Definition generateNextEmployeeId (employees : list Employee) : string :=
  let prefix := "HTE" in
  let maxNum :=
    match existingIds employees with
    | first :: others => JsNum.max_of first others
    | [] => 0%Z
    end in
  let nextNum := (maxNum + 1)%Z in
  prefix +:+ "-" +:+ Js.padStart 3 "0" (JsNum.toString10 nextNum).

(** A character other than the hyphen. *)
Definition not_hyphen (c : ascii) : bool := negb (Ascii.eqb c "-").


(** A row of the [profiles] query of [fetchData], with the joined names
    [departments:department_id(name)] and [designations:designation_id(name)]. *)
Record ProfileListing : Type := mkProfileListing {
  pl_id : string;
  pl_user_id : string;
  pl_employee_id : option string;
  pl_first_name : string;
  pl_last_name : string;
  pl_email : string;
  pl_phone : option string;
  pl_employment_status : string;
  pl_department_id : option string;
  pl_designation_id : option string;
  pl_date_of_birth : option string;
  pl_joining_date : option string;
  pl_reporting_manager : option string;
  pl_departments : option string;
  pl_designations : option string
}.

Definition role_name (r : Role) : string :=
  match r with admin => "admin" | hr => "hr" | employee => "employee" end.

(** [roles?.find(r => r.user_id === p.user_id)?.role || 'employee'] *)
Definition listed_role (roles : option (list RoleRow)) (p : ProfileListing) : string :=
  match roles with
  | Some rows =>
      match List.find (fun r => String.eqb (r_user_id r) (pl_user_id p)) rows with
      | Some r => role_name (r_role r)
      | None => "employee"
      end
  | None => "employee"
  end.

(** [profiles?.map(p => ({ ...p, department, designation, role })) || []] *)
Definition employeesWithRoles (profiles : option (list ProfileListing))
    (roles : option (list RoleRow)) : list Employee :=
  match profiles with
  | Some rows =>
      List.map (fun p =>
        mkEmployee (pl_id p) (pl_user_id p) (pl_employee_id p) (pl_first_name p)
          (pl_last_name p) (pl_email p) (pl_phone p) (pl_employment_status p)
          (pl_department_id p) (pl_designation_id p) (pl_date_of_birth p)
          (pl_joining_date p) (pl_departments p) (pl_designations p)
          (listed_role roles p) (pl_reporting_manager p)) rows
  | None => []
  end.

Definition not_admin (e : Employee) : bool := negb (String.eqb (e_role e) "admin").

(** The list [fetchData] passes to [setEmployees], from the data of its two
    queries ([None] is the [null] of a failed query), the [hideAdmin] prop
    and [isHR]. *)
Definition listedEmployees (profiles : option (list ProfileListing))
    (roles : option (list RoleRow)) (hideAdmin isHR : bool) : list Employee :=
  let filtered := List.filter not_admin (employeesWithRoles profiles roles) in
  if hideAdmin && isHR then List.filter not_admin filtered else filtered.


(** What a [toast({ title, description, variant })] call shows;
    [destructive] is [variant: 'destructive']. *)
Record Toast : Type := mkToast {
  toast_title : string;
  toast_description : option string;
  toast_destructive : bool
}.

(** [from('user_roles').delete().eq('user_id', u)] *)
Definition delete_roles_of_user (u : string) : Eff (Reply unit) :=
  remote (fun w =>
    (reply_data tt,
     set_user_roles
       (List.filter (fun r => negb (String.eqb (r_user_id r) u)) (user_roles w)) w)).

(** [from('user_sessions').delete().eq('profile_id', i)] *)
Definition delete_sessions_of_profile (i : string) : Eff (Reply unit) :=
  remote (fun w =>
    (reply_data tt,
     set_user_sessions
       (List.filter (fun s => negb (String.eqb (s_profile_id s) i)) (user_sessions w)) w)).

(** [handleDelete]: the value is the toast it shows.  An error of the
    Profile delete is thrown and caught by the handler's own [catch], which
    shows its message; what a rejected call throws carries a message this
    model does not know ([None]).  The closing [fetchData()] is not awaited
    and writes component state only; it is left out. *)
Definition handleDelete (employee : Employee) : Eff Toast :=
  try_catch
    (let* _ := delete_roles_of_user (e_user_id employee) in
     let* _ := delete_sessions_of_profile (e_id employee) in
     let* deleted := delete_profile (e_id employee) in
     match error deleted with
     | Some message => ret (mkToast "Error" (Some message) true)
     | None =>
         ret (mkToast "Employee Deleted"
                (Some (e_first_name employee +:+ " " +:+ e_last_name employee +:+
                       " has been permanently deleted"))
                false)
     end)
    (ret (mkToast "Error" None true)).

(* ===================================================================== *)
(** * The auth context and the route guard *)
(* ===================================================================== *)

(** [interface AuthUser] of src/contexts/AuthContext.tsx. *)
Record AuthUser : Type := mkAuthUser {
  au_id : string;
  au_email : string;
  au_role : Role;
  au_profileId : string;
  au_firstName : string;
  au_lastName : string
}.

(** The two [useState] cells of [AuthProvider]. *)
Record AuthState : Type := mkAuthState {
  authUser : option AuthUser;
  loading : bool
}.

(** [useState<AuthUser | null>(null)] and [useState(true)]. *)
Definition initial_auth_state : AuthState := mkAuthState None true.

Definition setAuthUser (v : option AuthUser) (st : AuthState) : AuthState :=
  mkAuthState v (loading st).

Definition setLoading (v : bool) (st : AuthState) : AuthState :=
  mkAuthState (authUser st) v.

(** The callbacks of the provider: what they return (or throw), the
    component state and the world afterwards. *)
Definition Ui (A : Type) : Type := AuthState -> World -> Outcome A * AuthState * World.

Definition refreshUser : Ui unit :=
  fun st w =>
    match getSessionUser w with
    | (Returned (Some user), w') =>
        (Returned tt,
         setAuthUser
           (Some (mkAuthUser (tu_id user) (tu_email user) (tu_role user)
                    (tu_profileId user) (tu_firstName user) (tu_lastName user))) st,
         w')
    | (Returned None, w') => (Returned tt, setAuthUser None st, w')
    | (Thrown, w') => (Returned tt, setAuthUser None st, w')
    end.

Definition initializeAuth : Ui unit :=
  fun st w =>
    match refreshUser st w with
    | (Returned _, st', w') => (Returned tt, setLoading false st', w')
    | (Thrown, st', w') => (Returned tt, setLoading false st', w')
    end.

Definition signOut : Ui unit :=
  fun st w =>
    match tableLogout w with
    | (Returned _, w') => (Returned tt, setAuthUser None st, w')
    | (Thrown, w') => (Returned tt, setAuthUser None st, w')
    end.

(** Values a property of the context object can hold. *)
Inductive JsValue : Type :=
  | JsUndefined
  | JsNull
  | JsBoolean (b : bool)
  | JsObject (user : AuthUser)
  | JsFunction.

Definition js_truthy (v : JsValue) : bool :=
  match v with
  | JsUndefined | JsNull => false
  | JsBoolean b => b
  | JsObject _ | JsFunction => true
  end.

(** [object.key]: a key the object does not have reads as [undefined]. *)
Definition js_get (object : gmap string JsValue) (key : string) : JsValue :=
  default JsUndefined (object !! key).

(** The object [AuthProvider] hands to its consumers,
    [{ authUser, loading, signOut, refreshUser }]. *)
Definition context_value (st : AuthState) : gmap string JsValue :=
  <["authUser" := match authUser st with
                  | Some user => JsObject user
                  | None => JsNull
                  end]>
  (<["loading" := JsBoolean (loading st)]>
  (<["signOut" := JsFunction]>
  (<["refreshUser" := JsFunction]> ∅))).

(** What a component renders. *)
Inductive Rendered : Type :=
  | RenderNothing
  | NavigateTo (path : string)
  | RenderOutlet.

(** [AuthGate], given what [useAuth()] returns. *)
Definition AuthGate (context : gmap string JsValue) : Rendered :=
  let user := js_get context "user" in
  let loading := js_get context "loading" in
  if js_truthy loading then RenderNothing
  else if negb (js_truthy user) then NavigateTo "/login"
  else RenderOutlet.

(* ===================================================================== *)
(** * More sample worlds *)
(* ===================================================================== *)

(** [alice]'s token still stored, her Session row gone. *)
Definition stale_token_world : World := set_user_sessions [] logged_in_world.

(** [alice] logged in, her Profile row gone. *)
Definition orphan_world : World := set_profiles [] logged_in_world.

(** Optional attributes given as empty strings or left out. *)
Definition blank_sample : AdditionalData :=
  mkAdditionalData (Some "") None (Some "") None (Some "") None (Some "").

(** An employee with the given [employee_id]. *)
Definition emp (i : option string) : Employee :=
  mkEmployee "p" "u" i "F" "L" "e" None "active" None None None None None None
    "employee" None.

Definition sample_employees : list Employee :=
  [emp (Some "HTE-007"); emp None; emp (Some "EMP-900"); emp (Some "HTE-x");
   emp (Some "HTE- +12abc-9")].

(** [alice] as the employees page lists her. *)
Definition alice_employee : Employee :=
  mkEmployee "p-1" "u-1" None "Alice" "Ames" "a@b.com" None "active" None None None
    None None None "hr" None.

(* ===================================================================== *)
(** * Properties *)
(* ===================================================================== *)

(** ** The built-ins on samples *)

Example toLowerCase_trim_sample :
  Js.trim (Js.toLowerCase "  Foo@Bar.com ") = "foo@bar.com".
Proof. reflexivity. Qed.

Example toString16_samples :
  Js.toString16 0 = "0" /\ Js.toString16 10 = "a" /\ Js.toString16 255 = "ff"
  /\ Js.toString16 4096 = "1000".
Proof. repeat split; reflexivity. Qed.

Example toISODate_samples :
  Js.toISODate 0 = "1970-01-01" /\ Js.toISODate 1793577600000 = "2026-11-02"
  /\ Js.toISODate 951782400000 = "2000-02-29" /\ Js.toISODate (-1)%Z = "1969-12-31".
Proof. repeat split; reflexivity. Qed.

(** ** Case mapping and trimming *)

Section Strings.

Import Js.

Lemma append_empty (s : string) : "" +:+ s = s.
Proof. reflexivity. Qed.

Lemma append_String (c : ascii) (a b : string) :
  String c a +:+ b = String c (a +:+ b).
Proof. reflexivity. Qed.

Lemma lower_is_space (c : ascii) : is_space (lower c) = is_space c.
Proof. destruct c as [[] [] [] [] [] [] [] []]; reflexivity. Qed.

Lemma lower_idempotent (c : ascii) : lower (lower c) = lower c.
Proof. destruct c as [[] [] [] [] [] [] [] []]; reflexivity. Qed.

Lemma toLowerCase_app (a b : string) :
  toLowerCase (a +:+ b) = toLowerCase a +:+ toLowerCase b.
Proof.
  induction a as [|c a IH]; [reflexivity|].
  rewrite !append_String. simpl. now rewrite IH.
Qed.

Lemma all_space_toLowerCase (s : string) :
  all_space (toLowerCase s) = all_space s.
Proof.
  induction s as [|c s IH]; simpl; [reflexivity|].
  now rewrite lower_is_space, IH.
Qed.

Lemma trimStart_all_space (s : string) : all_space s = true -> trimStart s = "".
Proof.
  induction s as [|c s IH]; simpl; [reflexivity|].
  intros [Hc Hs]%andb_prop. rewrite Hc. auto.
Qed.

Lemma trimEnd_all_space (s : string) : all_space s = true -> trimEnd s = "".
Proof.
  induction s as [|c s IH]; simpl; [reflexivity|].
  intros [Hc Hs]%andb_prop. rewrite (IH Hs), Hc. reflexivity.
Qed.

Lemma trimStart_skip (l s : string) :
  all_space l = true -> trimStart (l +:+ s) = trimStart s.
Proof.
  induction l as [|c l IH]; [reflexivity|].
  rewrite append_String. simpl.
  intros [Hc Hl]%andb_prop. rewrite Hc. auto.
Qed.

Lemma trimEnd_skip (s r : string) :
  all_space r = true -> trimEnd (s +:+ r) = trimEnd s.
Proof.
  intros Hr. induction s as [|c s IH].
  - now apply trimEnd_all_space.
  - rewrite append_String. simpl. now rewrite IH.
Qed.

Lemma trim_skip_right (s r : string) :
  all_space r = true -> trim (s +:+ r) = trim s.
Proof.
  intros Hr. unfold trim. induction s as [|c s IH].
  - rewrite append_empty, (trimStart_all_space r Hr). reflexivity.
  - rewrite append_String. cbn [trimStart].
    destruct (is_space c); [exact IH|].
    rewrite <- append_String. now apply trimEnd_skip.
Qed.

Lemma trim_skip (l s r : string) :
  all_space l = true -> all_space r = true -> trim (l +:+ s +:+ r) = trim s.
Proof.
  intros Hl Hr. unfold trim. rewrite (trimStart_skip l _ Hl).
  now apply trim_skip_right.
Qed.

Lemma same_letters_toLowerCase (a b : string) :
  same_letters a b = true -> toLowerCase a = toLowerCase b.
Proof.
  revert b. induction a as [|x a IH]; intros [|y b]; simpl; try discriminate; auto.
  intros [Hxy Hab]%andb_prop. apply Ascii.eqb_eq in Hxy.
  now rewrite Hxy, (IH b Hab).
Qed.

(** Addresses equal up to case and surrounding white space have the same
    normal form [email.toLowerCase().trim()]. *)
Lemma normal_form_equal (e1 e2 : string) :
  equal_up_to_case_and_space e1 e2 ->
  trim (toLowerCase e1) = trim (toLowerCase e2).
Proof.
  intros (l1 & c1 & r1 & l2 & c2 & r2 & -> & -> & Hl1 & Hr1 & Hl2 & Hr2 & Hc).
  rewrite !toLowerCase_app.
  rewrite !trim_skip by (now rewrite all_space_toLowerCase).
  now rewrite (same_letters_toLowerCase c1 c2 Hc).
Qed.

End Strings.

(** ** Hexadecimal rendering *)

Section Hex.

(** A byte is rendered as its high digit then its low digit: two
    characters, the first one ["0"] for a byte below 16. *)
Lemma byte_hex_digits (b : byte) :
  byte_hex b =
  String (Js.hex_digit (Byte.to_N b / 16))
    (String (Js.hex_digit (Byte.to_N b mod 16)) "").
Proof. destruct b; reflexivity. Qed.

Lemma byte_hex_lower (b : byte) : all_chars is_lower_hex (byte_hex b) = true.
Proof. destruct b; reflexivity. Qed.

Lemma byte_unhex_hex (b : byte) : byte_unhex (byte_hex b) = Some b.
Proof. destruct b; reflexivity. Qed.

Lemma byte_hex_inj (b1 b2 : byte) : byte_hex b1 = byte_hex b2 -> b1 = b2.
Proof.
  intros H. apply (f_equal byte_unhex) in H.
  rewrite !byte_unhex_hex in H. congruence.
Qed.

Lemma hex_of_bytes_cons (b : byte) (l : list byte) :
  hex_of_bytes (b :: l) =
  String (Js.hex_digit (Byte.to_N b / 16))
    (String (Js.hex_digit (Byte.to_N b mod 16)) (hex_of_bytes l)).
Proof.
  unfold hex_of_bytes. cbn [List.map Js.join]. now rewrite byte_hex_digits.
Qed.

Lemma hex_of_bytes_length (l : list byte) :
  String.length (hex_of_bytes l) = 2 * List.length l.
Proof.
  induction l as [|b l IH]; [reflexivity|].
  rewrite hex_of_bytes_cons. simpl. rewrite IH. lia.
Qed.

Lemma hex_of_bytes_lower (l : list byte) :
  all_chars is_lower_hex (hex_of_bytes l) = true.
Proof.
  induction l as [|b l IH]; [reflexivity|].
  pose proof (byte_hex_lower b) as Hb.
  rewrite byte_hex_digits in Hb. rewrite hex_of_bytes_cons.
  simpl in *. rewrite IH.
  destruct (is_lower_hex _); [|discriminate].
  destruct (is_lower_hex _); [reflexivity|discriminate].
Qed.

Lemma hex_of_bytes_inj (l1 l2 : list byte) :
  hex_of_bytes l1 = hex_of_bytes l2 -> l1 = l2.
Proof.
  revert l2. induction l1 as [|b1 l1 IH]; intros [|b2 l2];
    rewrite ?hex_of_bytes_cons; try discriminate; [reflexivity|].
  intros H. injection H as H1 H2 H3.
  f_equal; [|now apply IH].
  apply byte_hex_inj. rewrite !byte_hex_digits. now rewrite H1, H2.
Qed.

Lemma random32_length (w : World) : List.length (random32 w) = 32.
Proof.
  unfold random32, random_bytes. now rewrite List.length_map, List.length_seq.
Qed.

End Hex.

(** ** Running the operations *)

Arguments Js.trim : simpl never.
Arguments Js.toLowerCase : simpl never.
Arguments Js.truthy_string : simpl never.
Arguments Js.truthy_bool : simpl never.
Arguments Js.plus_seven_days : simpl never.
Arguments Js.toISODate : simpl never.
Arguments profiles_with_email : simpl never.
Arguments profiles_with_id : simpl never.
Arguments roles_of_user : simpl never.
Arguments sessions_with_token : simpl never.
Arguments hex_of_bytes : simpl never.
Arguments random_bytes : simpl never.

(** Case analysis on the innermost scrutinee of the goal. *)
Ltac break_match :=
  match goal with
  | |- context [match ?x with _ => _ end] =>
      lazymatch x with
      | context [match _ with _ => _ end] => fail
      | _ => destruct x eqn:?
      end
  end.

(** The primitives an operation is made of. *)
Ltac unfold_eff :=
  unfold try_catch, bind, ret, throw, property_of,
    select_profile_by_email, select_profile_by_id, select_role, select_session,
    insert_session, delete_sessions, insert_profile, delete_profile,
    update_password_hash, insert_role, rpc_hash_password, rpc_verify_password,
    localStorage_getItem, localStorage_setItem, localStorage_removeItem,
    new_Date, setDate_plus_seven, getRandomValues, randomUUID, remote, maybeSingle in *.

(** Symbolic execution along the path the equations in the context select. *)
Ltac run :=
  unfold_eff; unfold fault_at, storage_at in *; cbn in *;
  repeat (match goal with H : _ = _ |- _ => rewrite H end; cbn).

Lemma generateSessionToken_run (w : World) :
  generateSessionToken w =
  (Returned (hex_of_bytes (random32 w)), set_rng_pos (rng_pos w + 32) w).
Proof. reflexivity. Qed.

(** ** tableLogin *)

(** Every call returns (nothing is thrown) and never touches [profiles] or
    [user_roles].  A success has written one Session row and both keys of the
    session store.  A failure has written nothing, unless it is the failure
    of a [setItem] call that threw: the Session row was inserted before. *)
Lemma tableLogin_effects (email password : string) (w : World) :
  exists result : LoginResult,
    fst (tableLogin email password w) = Returned result /\
    profiles (snd (tableLogin email password w)) = profiles w /\
    user_roles (snd (tableLogin email password w)) = user_roles w /\
    (if lr_success result
     then exists profile : Profile,
            user_sessions (snd (tableLogin email password w)) =
              user_sessions w ++ [session_of profile w] /\
            localStorage (snd (tableLogin email password w)) = stored_login profile w
     else (user_sessions (snd (tableLogin email password w)) = user_sessions w /\
           localStorage (snd (tableLogin email password w)) = localStorage w) \/
          (exists profile : Profile,
             lr_error result = Some "Login failed. Please try again." /\
             user_sessions (snd (tableLogin email password w)) =
               user_sessions w ++ [session_of profile w] /\
             ((storage_at 0 w = QuotaExceeded /\
               localStorage (snd (tableLogin email password w)) = localStorage w) \/
              (storage_at 0 w = Stored /\ storage_at 1 w = QuotaExceeded /\
               localStorage (snd (tableLogin email password w)) =
                 <[hrms_session_token := hex_of_bytes (random32 w)]> (localStorage w))))).
Proof.
  unfold tableLogin, generateSessionToken, storage_at. unfold_eff. cbn.
  repeat (break_match; cbn in *); try discriminate;
    (eexists; split; [reflexivity|]; cbn);
    (split; [reflexivity|]); (split; [reflexivity|]);
    first [ left; split; reflexivity
          | match goal with p : Profile |- _ => exists p end; split; reflexivity
          | right; match goal with p : Profile |- _ => exists p end;
            split; [reflexivity|]; split; [reflexivity|];
            first [ left; split; reflexivity
                  | right; split; [reflexivity|]; split; reflexivity ] ].
Qed.



(** The second [setItem] throwing leaves the token key behind. *)
Example tableLogin_second_write_fails_sample :
  fst (tableLogin "a@b.com" "secret"
         (with_storage [Stored; QuotaExceeded] sample_world)) =
    Returned (mkLoginResult false None (Some "Login failed. Please try again.")) /\
  localStorage
    (snd (tableLogin "a@b.com" "secret"
            (with_storage [Stored; QuotaExceeded] sample_world))) !! hrms_session_token =
    Some alice_token /\
  localStorage
    (snd (tableLogin "a@b.com" "secret"
            (with_storage [Stored; QuotaExceeded] sample_world))) !! hrms_user_id = None.
Proof. repeat split; reflexivity. Qed.

(** The scenario of the specification: a wrong password for an existing
    account, and no Session row afterwards. *)
Example tableLogin_wrong_password_sample :
  fst (tableLogin "a@b.com" "wrong" sample_world) =
    Returned (login_error "Invalid email or password") /\
  user_sessions (snd (tableLogin "a@b.com" "wrong" sample_world)) = [] /\
  localStorage (snd (tableLogin "a@b.com" "wrong" sample_world)) = ∅.
Proof. repeat split; reflexivity. Qed.

(** The scenario of the specification: the right password, role [hr]. *)
Example tableLogin_success_sample :
  fst (tableLogin "a@b.com" "secret" sample_world) =
    Returned (mkLoginResult true
                (Some (mkTableUser "u-1" "p-1" "a@b.com" "Alice" "Ames" hr)) None) /\
  user_sessions logged_in_world =
    [mkSessionRow "p-1"
       "01080f161d242b323940474e555c636a71787f868d949ba2a9b0b7bec5ccd3da"
       (1000 + 7 * 86400000)].
Proof. split; reflexivity. Qed.

(** C1. [tableLogin] answers a login for an address no Profile has (the
    lookup completes and matches no row) and a login with a wrong password
    for an existing Profile that has a password hash (the verification call
    completes and returns false or null) with the same result,
    [{ success: false, error: "Invalid email or password" }]. *)
Theorem tableLogin_failures_indistinguishable
    (email1 password1 email2 password2 : string) (w1 w2 : World)
    (profile : Profile) (password_hash : string) :
  fault_at 0 w1 = Completes ->
  profiles_with_email (Js.trim (Js.toLowerCase email1)) (profiles w1) = [] ->
  fault_at 0 w2 = Completes ->
  profiles_with_email (Js.trim (Js.toLowerCase email2)) (profiles w2) = [profile] ->
  Js.truthy_string (p_password_hash profile) = Some password_hash ->
  fault_at 1 w2 = Completes ->
  Js.truthy_bool (verify_password w2 password2 password_hash) = false ->
  fst (tableLogin email1 password1 w1) =
    Returned (mkLoginResult false None (Some "Invalid email or password")) /\
  fst (tableLogin email2 password2 w2) =
    Returned (mkLoginResult false None (Some "Invalid email or password")) /\
  fst (tableLogin email1 password1 w1) = fst (tableLogin email2 password2 w2).
Proof.
  intros F1 P1 F2 P2 Hh F3 Hv.
  assert (fst (tableLogin email1 password1 w1) =
            Returned (mkLoginResult false None (Some "Invalid email or password"))) as R1.
  { unfold tableLogin. run. reflexivity. }
  assert (fst (tableLogin email2 password2 w2) =
            Returned (mkLoginResult false None (Some "Invalid email or password"))) as R2.
  { unfold tableLogin. run. reflexivity. }
  now rewrite R1, R2.
Qed.

Lemma tableLogin_failures_indistinguishable_witness :
  fst (tableLogin "nobody@b.com" "secret" sample_world) =
    Returned (mkLoginResult false None (Some "Invalid email or password")) /\
  fst (tableLogin " A@B.com" "wrong" sample_world) =
    Returned (mkLoginResult false None (Some "Invalid email or password")) /\
  fst (tableLogin "nobody@b.com" "secret" sample_world) =
    fst (tableLogin " A@B.com" "wrong" sample_world).
Proof.
  apply (tableLogin_failures_indistinguishable
           "nobody@b.com" "secret" " A@B.com" "wrong" sample_world sample_world
           alice "hash:secret"); reflexivity.
Defined.

(** ** getSessionUser *)

(** C7. A stored token whose Session row is found and has not expired, and
    whose Profile is found, resolves to a user view even when [user_roles]
    has no row for the user: the role is then [employee].  (The role lookup
    may complete or resolve to an error, which the code ignores.) *)
Theorem getSessionUser_role_defaults_to_employee
    (w : World) (sessionToken : string) (session : SessionRow) (profile : Profile) :
  Js.truthy_string (localStorage w !! hrms_session_token) = Some sessionToken ->
  fault_at 0 w = Completes ->
  sessions_with_token sessionToken (user_sessions w) = [session] ->
  (s_expires_at session <? now w)%Z = false ->
  fault_at 1 w = Completes ->
  profiles_with_id (s_profile_id session) (profiles w) = [profile] ->
  fault_at 2 w <> Rejects ->
  roles_of_user (p_user_id profile) (user_roles w) = [] ->
  fst (getSessionUser w) =
    Returned (Some (mkTableUser (p_user_id profile) (p_id profile) (p_email profile)
                      (p_first_name profile) (p_last_name profile) employee)).
Proof.
  intros Htok F0 Hs Hexp F1 Hp F2 Hr.
  unfold getSessionUser.
  destruct (fault_at 2 w) eqn:F2'; [| |congruence]; run; reflexivity.
Qed.

Lemma getSessionUser_role_defaults_to_employee_witness :
  fst (getSessionUser roleless_world) =
    Returned (Some (mkTableUser "u-1" "p-1" "a@b.com" "Alice" "Ames" employee)).
Proof.
  apply (getSessionUser_role_defaults_to_employee
           roleless_world alice_token alice_session alice);
    first [reflexivity | discriminate].
Defined.

Lemma cleared_lookup_token (m : gmap string string) :
  delete hrms_user_id (delete hrms_session_token m) !! hrms_session_token = None.
Proof. rewrite lookup_delete_ne by discriminate. apply lookup_delete_eq. Qed.

Lemma cleared_lookup_user (m : gmap string string) :
  delete hrms_user_id (delete hrms_session_token m) !! hrms_user_id = None.
Proof. apply lookup_delete_eq. Qed.

Lemma cleared_twice (m : gmap string string) :
  m !! hrms_session_token = None -> m !! hrms_user_id = None ->
  delete hrms_user_id (delete hrms_session_token m) = m.
Proof. intros H1 H2. rewrite (delete_id m _ H1). now apply delete_id. Qed.

(** Without a stored token no remote call is made and nothing changes. *)
Lemma getSessionUser_without_token (w : World) :
  Js.truthy_string (localStorage w !! hrms_session_token) = None ->
  getSessionUser w = (Returned None, w).
Proof. intros H. unfold getSessionUser. run. reflexivity. Qed.

Lemma getSessionUser_cleared (w : World) :
  session_store_cleared w -> fst (getSessionUser w) = Returned None.
Proof.
  intros [H _]. rewrite getSessionUser_without_token; [reflexivity|].
  now rewrite H.
Qed.

(** An expired session resolves to nobody whatever the remote calls do, and
    either the session store is cleared or nothing has changed. *)
Lemma getSessionUser_expired_none
    (w : World) (sessionToken : string) (session : SessionRow) :
  Js.truthy_string (localStorage w !! hrms_session_token) = Some sessionToken ->
  sessions_with_token sessionToken (user_sessions w) = [session] ->
  (s_expires_at session <? now w)%Z = true ->
  fst (getSessionUser w) = Returned None /\
  (session_store_cleared (snd (getSessionUser w)) \/
   (user_sessions (snd (getSessionUser w)) = user_sessions w /\
    localStorage (snd (getSessionUser w)) = localStorage w)).
Proof.
  intros Htok Hs Hexp. unfold getSessionUser, session_store_cleared.
  destruct (fault_at 0 w) eqn:F0; [destruct (fault_at 1 w) eqn:F1| |]; run;
    (split; [reflexivity|]);
    auto using cleared_lookup_token, cleared_lookup_user.
Qed.

Lemma sessions_with_token_deleted (t : string) (rows : list SessionRow) :
  sessions_with_token t
    (List.filter (fun s => negb (String.eqb (s_session_token s) t)) rows) = [].
Proof.
  unfold sessions_with_token.
  induction rows as [|s l IH]; [reflexivity|].
  cbn. destruct (String.eqb (s_session_token s) t) eqn:E; cbn; [exact IH|].
  now rewrite E.
Qed.

(** C3 (amended). For a stored token whose Session row has [expires_at]
    strictly in the past, [getSessionUser] returns none, and so does a
    second call right after, whatever the remote calls do.  When the lookup
    and the delete call complete, the Session row is deleted and both
    session-store keys are cleared; when the delete call resolves to an
    error, the keys are cleared and the row stays. *)
Theorem getSessionUser_expired_session
    (w : World) (sessionToken : string) (session : SessionRow) :
  Js.truthy_string (localStorage w !! hrms_session_token) = Some sessionToken ->
  sessions_with_token sessionToken (user_sessions w) = [session] ->
  (s_expires_at session < now w)%Z ->
  fst (getSessionUser w) = Returned None /\
  (forall w2 : World,
     same_stores (snd (getSessionUser w)) w2 -> (now w <= now w2)%Z ->
     fst (getSessionUser w2) = Returned None) /\
  (fault_at 0 w = Completes -> fault_at 1 w = Completes ->
     user_sessions (snd (getSessionUser w)) =
       List.filter (fun s => negb (String.eqb (s_session_token s) sessionToken))
         (user_sessions w) /\
     sessions_with_token sessionToken (user_sessions (snd (getSessionUser w))) = [] /\
     session_store_cleared (snd (getSessionUser w))) /\
  (forall message : string,
     fault_at 0 w = Completes -> fault_at 1 w = Errors message ->
     user_sessions (snd (getSessionUser w)) = user_sessions w /\
     session_store_cleared (snd (getSessionUser w))).
Proof.
  intros Htok Hs Hlt.
  assert (Hexp : (s_expires_at session <? now w)%Z = true) by now apply Z.ltb_lt.
  destruct (getSessionUser_expired_none w sessionToken session Htok Hs Hexp)
    as [Hnone Hstores].
  split; [exact Hnone|]. split; [|split].
  - intros w2 (_ & _ & Hss & Hls) Hnow.
    destruct Hstores as [[Hc1 Hc2] | [Hsame Hlsame]].
    + apply getSessionUser_cleared. split; now rewrite Hls.
    + apply (getSessionUser_expired_none w2 sessionToken session).
      * now rewrite Hls, Hlsame.
      * now rewrite Hss, Hsame.
      * apply Z.ltb_lt. lia.
  - intros F0 F1. clear Hnone Hstores. unfold getSessionUser, session_store_cleared.
    run. repeat split;
      auto using cleared_lookup_token, cleared_lookup_user, sessions_with_token_deleted.
  - intros message F0 F1. clear Hnone Hstores.
    unfold getSessionUser, session_store_cleared.
    run. repeat split; auto using cleared_lookup_token, cleared_lookup_user.
Qed.

Lemma getSessionUser_expired_session_witness :
  fst (getSessionUser expired_world) = Returned None /\
  sessions_with_token alice_token (user_sessions (snd (getSessionUser expired_world))) = [] /\
  session_store_cleared (snd (getSessionUser expired_world)) /\
  fst (getSessionUser (snd (getSessionUser expired_world))) = Returned None.
Proof.
  destruct (getSessionUser_expired_session expired_world alice_token alice_session)
    as (Hnone & Hagain & Hdone & _); [reflexivity | reflexivity | reflexivity |].
  destruct Hdone as (_ & Hrow & Hcleared); [reflexivity | reflexivity |].
  split; [exact Hnone|]. split; [exact Hrow|]. split; [exact Hcleared|].
  apply Hagain; [repeat split | reflexivity].
Defined.

(** C3 as stated fails when the delete call resolves to an error: the call
    returns none and clears the session store, and the expired Session row
    is still in the table. *)
Lemma getSessionUser_expired_row_may_stay :
  Js.truthy_string
    (localStorage (with_faults [Completes; Errors "network"] expired_world)
       !! hrms_session_token) = Some alice_token /\
  sessions_with_token alice_token
    (user_sessions (with_faults [Completes; Errors "network"] expired_world)) =
    [alice_session] /\
  (s_expires_at alice_session <
   now (with_faults [Completes; Errors "network"] expired_world))%Z /\
  fst (getSessionUser (with_faults [Completes; Errors "network"] expired_world)) =
    Returned None /\
  sessions_with_token alice_token
    (user_sessions
       (snd (getSessionUser (with_faults [Completes; Errors "network"] expired_world)))) =
    [alice_session].
Proof. repeat split. Qed.

(** When the delete call rejects, the session store is not cleared either. *)
Example getSessionUser_expired_delete_rejects :
  fst (getSessionUser (with_faults [Completes; Rejects] expired_world)) = Returned None /\
  localStorage (snd (getSessionUser (with_faults [Completes; Rejects] expired_world)))
    !! hrms_session_token = Some alice_token /\
  user_sessions (snd (getSessionUser (with_faults [Completes; Rejects] expired_world))) =
    [alice_session].
Proof. repeat split. Qed.

(** ** tableLogout *)

(** Without a stored token [tableLogout] makes no remote call: it only
    removes the two keys. *)
Lemma tableLogout_without_token (w : World) :
  Js.truthy_string (localStorage w !! hrms_session_token) = None ->
  tableLogout w =
  (Returned tt,
   set_localStorage (delete hrms_user_id (delete hrms_session_token (localStorage w))) w).
Proof. intros H. unfold tableLogout. run. reflexivity. Qed.

(** C9. [tableLogout] returns with both session-store keys cleared,
    whether or not a token was stored, and leaves the Profile and Role tables
    untouched.  The Session delete is made only when a token is stored and
    is best-effort: when it resolves to an error the row stays and the keys
    are cleared all the same.  From there on a further [tableLogout] changes
    neither the tables nor the session store (idempotence), and
    [getSessionUser] returns none, whether or not a session existed.
    The premise is the client's contract: a query resolves to
    [{ data, error }], also when the request fails; its promise does not
    reject. *)
Theorem tableLogout_clears_session_store (w : World) :
  (Js.truthy_string (localStorage w !! hrms_session_token) = None \/
   fault_at 0 w <> Rejects) ->
  fst (tableLogout w) = Returned tt /\
  session_store_cleared (snd (tableLogout w)) /\
  profiles (snd (tableLogout w)) = profiles w /\
  user_roles (snd (tableLogout w)) = user_roles w /\
  (Js.truthy_string (localStorage w !! hrms_session_token) = None ->
     user_sessions (snd (tableLogout w)) = user_sessions w /\
     calls (snd (tableLogout w)) = calls w) /\
  (forall sessionToken : string,
     Js.truthy_string (localStorage w !! hrms_session_token) = Some sessionToken ->
     user_sessions (snd (tableLogout w)) =
       match fault_at 0 w with
       | Completes =>
           List.filter (fun s => negb (String.eqb (s_session_token s) sessionToken))
             (user_sessions w)
       | _ => user_sessions w
       end) /\
  (forall w2 : World,
     same_stores (snd (tableLogout w)) w2 ->
     fst (tableLogout w2) = Returned tt /\
     same_stores w2 (snd (tableLogout w2)) /\
     fst (getSessionUser w2) = Returned None).
Proof.
  intros Hpre.
  assert (Hrun : fst (tableLogout w) = Returned tt /\
                 localStorage (snd (tableLogout w)) =
                   delete hrms_user_id (delete hrms_session_token (localStorage w)) /\
                 profiles (snd (tableLogout w)) = profiles w /\
                 user_roles (snd (tableLogout w)) = user_roles w).
  { unfold tableLogout.
    destruct (Js.truthy_string (localStorage w !! hrms_session_token)) eqn:Htok.
    - destruct Hpre as [Hpre|Hpre]; [discriminate|].
      destruct (fault_at 0 w) eqn:F0; [| |congruence]; run; repeat split.
    - run. repeat split. }
  destruct Hrun as (Hret & Hls & Hp & Hr).
  assert (Hcleared : session_store_cleared (snd (tableLogout w))).
  { unfold session_store_cleared. rewrite Hls.
    split; [apply cleared_lookup_token | apply cleared_lookup_user]. }
  split; [exact Hret|]. split; [exact Hcleared|]. split; [exact Hp|].
  split; [exact Hr|]. split; [|split].
  - intros Htok. rewrite (tableLogout_without_token w Htok). split; reflexivity.
  - intros sessionToken Htok. clear Hret Hls Hp Hr Hcleared Hpre.
    unfold tableLogout. destruct (fault_at 0 w) eqn:F0; run; reflexivity.
  - intros w2 (_ & _ & _ & Hls2).
    assert (Hc2 : session_store_cleared w2).
    { destruct Hcleared as [H1 H2]. split; now rewrite Hls2. }
    assert (Hnone : Js.truthy_string (localStorage w2 !! hrms_session_token) = None).
    { destruct Hc2 as [H1 _]. now rewrite H1. }
    rewrite (tableLogout_without_token w2 Hnone).
    split; [reflexivity|]. split; [|now apply getSessionUser_cleared].
    destruct Hc2 as [H1 H2]. repeat split. cbn.
    now apply cleared_twice.
Qed.

Lemma tableLogout_clears_session_store_witness :
  fst (tableLogout logged_in_world) = Returned tt /\
  session_store_cleared (snd (tableLogout logged_in_world)) /\
  user_sessions (snd (tableLogout logged_in_world)) = [] /\
  fst (getSessionUser (snd (tableLogout logged_in_world))) = Returned None.
Proof.
  destruct (tableLogout_clears_session_store logged_in_world)
    as (Hret & Hcleared & _ & _ & _ & Hrows & Hafter); [right; discriminate|].
  split; [exact Hret|]. split; [exact Hcleared|].
  split; [exact (Hrows alice_token eq_refl)|].
  apply (Hafter (snd (tableLogout logged_in_world))). repeat split.
Defined.

(** [tableLogout] has no [try]: were the awaited delete to reject, it would
    throw before the two [removeItem] calls and the token would stay in the
    session store. *)
Example tableLogout_rejected_delete_keeps_session :
  fst (tableLogout (with_faults [Rejects] logged_in_world)) = Thrown /\
  localStorage (snd (tableLogout (with_faults [Rejects] logged_in_world)))
    !! hrms_session_token = Some alice_token /\
  fst (getSessionUser (snd (tableLogout (with_faults [Rejects] logged_in_world)))) =
    Returned (Some (mkTableUser "u-1" "p-1" "a@b.com" "Alice" "Ames" hr)).
Proof. repeat split. Qed.

(** A delete call that resolves to an error is ignored: the store is
    cleared, the Session row stays. *)
Example tableLogout_failed_delete_sample :
  fst (tableLogout (with_faults [Errors "network"] logged_in_world)) = Returned tt /\
  localStorage (snd (tableLogout (with_faults [Errors "network"] logged_in_world))) = ∅ /\
  user_sessions (snd (tableLogout (with_faults [Errors "network"] logged_in_world))) =
    [alice_session].
Proof. repeat split. Qed.

(** ** createTableUser *)

Arguments new_profile_row : simpl never.

(** Every call returns a result; a successful one has added one Profile
    row, with the normalized address, and one Role row for the new user. *)
Lemma createTableUser_effects
    (email password firstName lastName : string) (role : NewRole)
    (additionalData : option AdditionalData) (w : World) :
  exists result : CreateUserResult,
    fst (createTableUser email password firstName lastName role additionalData w) =
      Returned result /\
    (cr_success result = true ->
     exists passwordHash : string,
       profiles (snd (createTableUser email password firstName lastName role
                        additionalData w)) =
         profiles w ++
           [new_profile_row email firstName lastName passwordHash
              (uuids w (uuid_pos w)) additionalData (now w) (db_ids w (db_id_pos w))] /\
       user_roles (snd (createTableUser email password firstName lastName role
                          additionalData w)) =
         user_roles w ++ [mkRoleRow (uuids w (uuid_pos w)) (role_of_new role)] /\
       cr_userId result = Some (uuids w (uuid_pos w)) /\
       cr_profileId result = Some (db_ids w (db_id_pos w))).
Proof.
  unfold createTableUser. unfold_eff. cbn.
  repeat (break_match; cbn in *); try discriminate;
    (eexists; split; [reflexivity|]; cbn; intros Hs; try discriminate Hs).
  repeat match goal with H : Returned _ = Returned _ |- _ => inversion H; clear H; subst end.
  cbn in *.
  all: eexists; repeat split; reflexivity.
Qed.

Lemma filter_none_filter {A : Type} (p q : A -> bool) (l : list A) :
  List.filter p l = [] -> List.filter p (List.filter q l) = [].
Proof.
  induction l as [|a l IH]; [reflexivity|]. cbn.
  destruct (p a) eqn:Hp; [discriminate|].
  intros H. destruct (q a); cbn; rewrite ?Hp; auto.
Qed.

Lemma filter_out_last (i : string) (rows : list Profile) (row : Profile) :
  p_id row = i ->
  List.filter (fun p => negb (String.eqb (p_id p) i)) (rows ++ [row]) =
  List.filter (fun p => negb (String.eqb (p_id p) i)) rows.
Proof.
  intros <-. rewrite List.filter_app. cbn. rewrite String.eqb_refl. cbn.
  apply List.app_nil_r.
Qed.

Lemma filter_out_fresh (i : string) (rows : list Profile) :
  profiles_with_id i rows = [] ->
  List.filter (fun p => negb (String.eqb (p_id p) i)) rows = rows.
Proof.
  unfold profiles_with_id.
  induction rows as [|p l IH]; [reflexivity|]. cbn.
  destruct (String.eqb (p_id p) i); [discriminate|].
  cbn. intros H. now rewrite IH.
Qed.

Section CreateUser.

Variables (email password firstName lastName : string) (role : NewRole).
Variables (additionalData : option AdditionalData) (w : World).

Local Abbreviation call :=
  (createTableUser email password firstName lastName role additionalData w).
Local Abbreviation normalized := (Js.trim (Js.toLowerCase email)).

(** When the existence lookup completes and returns the Profile with the
    normalized address, [createTableUser] returns
    [{ success: false, error: "Email already registered" }] and leaves every
    table and the session store as they were. *)
Lemma createTableUser_rejects_registered_email (existing : Profile) :
  fault_at 0 w = Completes ->
  profiles_with_email normalized (profiles w) = [existing] ->
  fst call =
    Returned (mkCreateUserResult false None None (Some "Email already registered")) /\
  profiles (snd call) = profiles w /\
  user_roles (snd call) = user_roles w /\
  same_stores w (snd call).
Proof.
  intros F0 Hex. unfold createTableUser, same_stores. run. repeat split.
Qed.

(** C2 (amended). When no Profile has the address yet, the Profile insert
    succeeds and the Role insert resolves to an error, [createTableUser]
    adds no Role row and calls for the deletion of the Profile row it has
    just created.  Unless that delete call throws, the result is
    [{ success: false, error: "Failed to assign role" }].  When the delete
    call completes, the row is gone and no Profile row has the address (the
    table is as before when the new key was not in use); when the delete
    call fails, the row stays: the rollback is best-effort. *)
Theorem createTableUser_role_failure_rolls_back
    (passwordHash message : string) :
  fault_at 0 w = Completes ->
  profiles_with_email normalized (profiles w) = [] ->
  fault_at 1 w = Completes ->
  Js.truthy_string (hash_password w password) = Some passwordHash ->
  fault_at 2 w = Completes ->
  fault_at 3 w = Errors message ->
  user_roles (snd call) = user_roles w /\
  (fault_at 4 w <> Rejects ->
     fst call =
       Returned (mkCreateUserResult false None None (Some "Failed to assign role"))) /\
  (fault_at 4 w = Completes ->
     profiles (snd call) =
       List.filter (fun p => negb (String.eqb (p_id p) (db_ids w (db_id_pos w))))
         (profiles w) /\
     profiles_with_email normalized (profiles (snd call)) = [] /\
     (profiles_with_id (db_ids w (db_id_pos w)) (profiles w) = [] ->
      profiles (snd call) = profiles w)) /\
  (fault_at 4 w <> Completes ->
     profiles (snd call) =
       profiles w ++
         [new_profile_row email firstName lastName passwordHash
            (uuids w (uuid_pos w)) additionalData (now w) (db_ids w (db_id_pos w))]).
Proof.
  intros F0 Hnone F1 Hhash F2 F3.
  assert (Hgone :
    List.filter (fun p => negb (String.eqb (p_id p) (db_ids w (db_id_pos w))))
      (profiles w ++
         [new_profile_row email firstName lastName passwordHash
            (uuids w (uuid_pos w)) additionalData (now w) (db_ids w (db_id_pos w))]) =
    List.filter (fun p => negb (String.eqb (p_id p) (db_ids w (db_id_pos w))))
      (profiles w)) by now apply filter_out_last.
  unfold createTableUser.
  destruct (fault_at 4 w) eqn:F4; run; rewrite ?Hgone;
    (split; [reflexivity|]); (split; [intros; congruence || reflexivity|]).
  - split; [|intros; congruence]. intros _.
    split; [reflexivity|]. split.
    + unfold profiles_with_email in *. now apply filter_none_filter.
    + apply filter_out_fresh.
  - split; [discriminate|]. reflexivity.
  - split; [discriminate|]. reflexivity.
Qed.

End CreateUser.

Lemma createTableUser_rejects_registered_email_witness :
  fst (createTableUser " A@B.com" "other" "Al" "Ice" new_employee None sample_world) =
    Returned (mkCreateUserResult false None None (Some "Email already registered")) /\
  profiles (snd (createTableUser " A@B.com" "other" "Al" "Ice" new_employee None
                   sample_world)) = [alice] /\
  user_roles (snd (createTableUser " A@B.com" "other" "Al" "Ice" new_employee None
                     sample_world)) = [mkRoleRow "u-1" hr].
Proof.
  destruct (createTableUser_rejects_registered_email
              " A@B.com" "other" "Al" "Ice" new_employee None sample_world alice)
    as (Hret & Hp & Hr & _); [reflexivity | reflexivity |].
  split; [exact Hret|]. split; [exact Hp | exact Hr].
Defined.

(** C8. The rejection of a registered address depends on the existence
    lookup going through: its error is not read (line 218 takes [data]
    only, where the same lookup in [tableLogin] reads [profileError]).  With
    [alice] registered as ["a@b.com"] and the lookup resolving to an error,
    a sign-up for ["a@b.com"] is not answered with
    ["Email already registered"]: it succeeds, and leaves a second Profile
    row with that address and a Role row for the new user. *)
Theorem createTableUser_unread_lookup_error :
  profiles_with_email (Js.trim (Js.toLowerCase "a@b.com"))
    (profiles (with_faults [Errors "network"] sample_world)) = [alice] /\
  fst (createTableUser "a@b.com" "other" "Al" "Ice" new_employee None
         (with_faults [Errors "network"] sample_world)) =
    Returned (mkCreateUserResult true (Some "user-0000") (Some "profile-0000") None) /\
  List.map p_email
    (profiles (snd (createTableUser "a@b.com" "other" "Al" "Ice" new_employee None
                      (with_faults [Errors "network"] sample_world)))) =
    ["a@b.com"; "a@b.com"] /\
  user_roles (snd (createTableUser "a@b.com" "other" "Al" "Ice" new_employee None
                     (with_faults [Errors "network"] sample_world))) =
    [mkRoleRow "u-1" hr; mkRoleRow "user-0000" employee].
Proof. repeat split; reflexivity. Qed.

(** The tables of this model enforce no uniqueness.  A database that does
    refuses the insert, which the fault script renders as an error of the
    third call: the answer is then the database's message, still not
    ["Email already registered"]. *)
Example createTableUser_lookup_error_sample :
  fst (createTableUser "a@b.com" "other" "Al" "Ice" new_employee None
         (with_faults [Errors "network"; Completes; Errors "duplicate key"]
            sample_world)) =
    Returned (mkCreateUserResult false None None (Some "duplicate key")) /\
  profiles (snd (createTableUser "a@b.com" "other" "Al" "Ice" new_employee None
                   (with_faults [Errors "network"; Completes; Errors "duplicate key"]
                      sample_world))) = [alice].
Proof. split; reflexivity. Qed.

Lemma createTableUser_role_failure_rolls_back_witness :
  fst (createTableUser "New@X.org " "pw" "Nia" "Xu" new_hr None
         (with_faults [Completes; Completes; Completes; Errors "denied"] sample_world)) =
    Returned (mkCreateUserResult false None None (Some "Failed to assign role")) /\
  profiles (snd (createTableUser "New@X.org " "pw" "Nia" "Xu" new_hr None
                   (with_faults [Completes; Completes; Completes; Errors "denied"]
                      sample_world))) = [alice] /\
  user_roles (snd (createTableUser "New@X.org " "pw" "Nia" "Xu" new_hr None
                     (with_faults [Completes; Completes; Completes; Errors "denied"]
                        sample_world))) = [mkRoleRow "u-1" hr].
Proof.
  destruct (createTableUser_role_failure_rolls_back
              "New@X.org " "pw" "Nia" "Xu" new_hr None
              (with_faults [Completes; Completes; Completes; Errors "denied"] sample_world)
              "hash:pw" "denied")
    as (Hr & Hret & Hdone & _); try reflexivity.
  split; [apply Hret; discriminate|].
  split; [|exact Hr].
  destruct Hdone as (_ & _ & Hsame); [reflexivity|].
  apply Hsame. reflexivity.
Defined.

(** C2 as stated fails when the compensating delete call itself resolves to
    an error: the call still returns "Failed to assign role", and the Profile
    row it has just created is still in the table, one row for the address. *)
Lemma createTableUser_rollback_may_fail :
  fst (createTableUser "New@X.org " "pw" "Nia" "Xu" new_hr None
         (with_faults [Completes; Completes; Completes; Errors "denied"; Errors "network"]
            sample_world)) =
    Returned (mkCreateUserResult false None None (Some "Failed to assign role")) /\
  profiles_with_email "new@x.org"
    (profiles
       (snd (createTableUser "New@X.org " "pw" "Nia" "Xu" new_hr None
               (with_faults
                  [Completes; Completes; Completes; Errors "denied"; Errors "network"]
                  sample_world)))) =
    [mkProfile "profile-0000" "user-0000" "new@x.org" "Nia" "Xu" (Some "hash:pw")
       None None None None "1970-01-01" None None].
Proof. split; reflexivity. Qed.

(** When the Role insert rejects instead, no rollback is attempted. *)
Example createTableUser_role_insert_rejects_sample :
  fst (createTableUser "New@X.org " "pw" "Nia" "Xu" new_hr None
         (with_faults [Completes; Completes; Completes; Rejects] sample_world)) =
    Returned (mkCreateUserResult false None None (Some "Failed to create user")) /\
  List.length
    (profiles (snd (createTableUser "New@X.org " "pw" "Nia" "Xu" new_hr None
                      (with_faults [Completes; Completes; Completes; Rejects]
                         sample_world)))) = 2.
Proof. split; reflexivity. Qed.

(** ** updatePassword *)

(** C10. Whenever the hashing call yields a non-empty hash and the update
    call reports no error, [updatePassword] returns [{ success: true }], for
    every [profileId]: the hash of each matching row is replaced, and when no
    row matches the table is unchanged and the result is still a success. *)
Theorem updatePassword_succeeds_without_match
    (profileId newPassword passwordHash : string) (w : World) :
  fault_at 0 w = Completes ->
  Js.truthy_string (hash_password w newPassword) = Some passwordHash ->
  fault_at 1 w = Completes ->
  fst (updatePassword profileId newPassword w) = Returned (mkUpdateResult true None) /\
  profiles (snd (updatePassword profileId newPassword w)) =
    List.map (fun p => if String.eqb (p_id p) profileId
                       then with_password_hash passwordHash p else p) (profiles w) /\
  (profiles_with_id profileId (profiles w) = [] ->
   profiles (snd (updatePassword profileId newPassword w)) = profiles w).
Proof.
  intros F0 Hh F1.
  assert (Hrun :
    fst (updatePassword profileId newPassword w) = Returned (mkUpdateResult true None) /\
    profiles (snd (updatePassword profileId newPassword w)) =
      List.map (fun p => if String.eqb (p_id p) profileId
                         then with_password_hash passwordHash p else p) (profiles w)).
  { unfold updatePassword. run. split; reflexivity. }
  destruct Hrun as [Hret Hp]. split; [exact Hret|]. split; [exact Hp|].
  rewrite Hp. clear. unfold profiles_with_id.
  induction (profiles w) as [|p l IH]; [reflexivity|]. cbn.
  destruct (String.eqb (p_id p) profileId); [discriminate|].
  intros H. now rewrite IH.
Qed.

Lemma updatePassword_succeeds_without_match_witness :
  fst (updatePassword "no-such-profile" "fresh" sample_world) =
    Returned (mkUpdateResult true None) /\
  profiles (snd (updatePassword "no-such-profile" "fresh" sample_world)) = [alice].
Proof.
  destruct (updatePassword_succeeds_without_match
              "no-such-profile" "fresh" "hash:fresh" sample_world)
    as (Hret & _ & Hsame); try reflexivity.
  split; [exact Hret|]. apply Hsame. reflexivity.
Defined.

Example updatePassword_matching_sample :
  List.map p_password_hash (profiles (snd (updatePassword "p-1" "fresh" sample_world))) =
    [Some "hash:fresh"].
Proof. reflexivity. Qed.

(** ** Session tokens *)

Lemma stored_login_token (profile : Profile) (w : World) :
  stored_login profile w !! hrms_session_token = Some (hex_of_bytes (random32 w)).
Proof.
  unfold stored_login. rewrite lookup_insert_ne by discriminate.
  apply lookup_insert_eq.
Qed.

(** What a successful login leaves behind. *)
Lemma tableLogin_success_inv (email password : string) (w : World) (result : LoginResult) :
  fst (tableLogin email password w) = Returned result ->
  lr_success result = true ->
  exists profile : Profile,
    user_sessions (snd (tableLogin email password w)) =
      user_sessions w ++ [session_of profile w] /\
    localStorage (snd (tableLogin email password w)) = stored_login profile w.
Proof.
  intros Hret Hs.
  destruct (tableLogin_effects email password w) as (r & Hr & _ & _ & Hw).
  rewrite Hret in Hr. injection Hr as <-. now rewrite Hs in Hw.
Qed.

(** C4. [generateSessionToken] returns the hexadecimal rendering of 32 bytes
    drawn from [crypto.getRandomValues]: 64 characters, each of [0-9a-f],
    two per byte (high digit then low digit, so a byte below 16 starts with
    ["0"]).  Two logins in a row that both succeed leave two Session rows
    whose tokens are of that form and differ whenever the bytes drawn
    differ. *)
Theorem generateSessionToken_hex_and_distinct :
  (forall w : World,
     fst (generateSessionToken w) = Returned (hex_of_bytes (random32 w)) /\
     List.length (random32 w) = 32 /\
     String.length (hex_of_bytes (random32 w)) = 64 /\
     all_chars is_lower_hex (hex_of_bytes (random32 w)) = true) /\
  (forall b : byte,
     byte_hex b =
     String (Js.hex_digit (Byte.to_N b / 16))
       (String (Js.hex_digit (Byte.to_N b mod 16)) "")) /\
  (forall (email1 password1 email2 password2 : string) (w w2 : World)
          (r1 r2 : LoginResult),
     fst (tableLogin email1 password1 w) = Returned r1 -> lr_success r1 = true ->
     same_stores (snd (tableLogin email1 password1 w)) w2 ->
     fst (tableLogin email2 password2 w2) = Returned r2 -> lr_success r2 = true ->
     random32 w <> random32 w2 ->
     localStorage (snd (tableLogin email1 password1 w)) !! hrms_session_token =
       Some (hex_of_bytes (random32 w)) /\
     localStorage (snd (tableLogin email2 password2 w2)) !! hrms_session_token =
       Some (hex_of_bytes (random32 w2)) /\
     (exists profile1 profile2 : Profile,
        user_sessions (snd (tableLogin email2 password2 w2)) =
          user_sessions w ++ [session_of profile1 w; session_of profile2 w2]) /\
     hex_of_bytes (random32 w) <> hex_of_bytes (random32 w2) /\
     String.length (hex_of_bytes (random32 w)) = 64 /\
     String.length (hex_of_bytes (random32 w2)) = 64).
Proof.
  assert (Hlen : forall w, String.length (hex_of_bytes (random32 w)) = 64).
  { intros w. now rewrite hex_of_bytes_length, random32_length. }
  split; [|split].
  - intros w. split; [reflexivity|]. split; [apply random32_length|].
    split; [apply Hlen | apply hex_of_bytes_lower].
  - exact byte_hex_digits.
  - intros email1 password1 email2 password2 w w2 r1 r2 Hr1 Hs1 Hsame Hr2 Hs2 Hne.
    destruct (tableLogin_success_inv _ _ _ _ Hr1 Hs1) as (p1 & Hrows1 & Hls1).
    destruct (tableLogin_success_inv _ _ _ _ Hr2 Hs2) as (p2 & Hrows2 & Hls2).
    destruct Hsame as (_ & _ & Hss & _).
    split; [rewrite Hls1; apply stored_login_token|].
    split; [rewrite Hls2; apply stored_login_token|].
    split.
    + exists p1, p2. rewrite Hrows2, Hss, Hrows1, <- List.app_assoc. reflexivity.
    + split; [|split; apply Hlen].
      intros Heq. apply Hne. now apply hex_of_bytes_inj.
Qed.

Lemma generateSessionToken_hex_and_distinct_witness :
  List.map s_session_token
    (user_sessions (snd (tableLogin "a@b.com" "secret" logged_in_world))) =
    [alice_token; "e1e8eff6fd040b121920272e353c434a51585f666d747b828990979ea5acb3ba"] /\
  hex_of_bytes (random32 sample_world) <> hex_of_bytes (random32 logged_in_world).
Proof.
  destruct generateSessionToken_hex_and_distinct as (_ & _ & Htwo).
  destruct (Htwo "a@b.com" "secret" "a@b.com" "secret" sample_world logged_in_world
              (mkLoginResult true
                 (Some (mkTableUser "u-1" "p-1" "a@b.com" "Alice" "Ames" hr)) None)
              (mkLoginResult true
                 (Some (mkTableUser "u-1" "p-1" "a@b.com" "Alice" "Ames" hr)) None))
    as (_ & _ & _ & Hne & _); try reflexivity.
  - repeat split.
  - vm_compute. discriminate.
  - split; [reflexivity | exact Hne].
Defined.

(** ** E-mail normalization *)

Section Normalization.

Import Js.

Lemma toLowerCase_String (c : ascii) (s : string) :
  toLowerCase (String c s) = String (lower c) (toLowerCase s).
Proof. reflexivity. Qed.

Lemma trimStart_toLowerCase (s : string) :
  trimStart (toLowerCase s) = toLowerCase (trimStart s).
Proof.
  induction s as [|c s IH]; [reflexivity|].
  rewrite toLowerCase_String. cbn [trimStart]. rewrite lower_is_space.
  destruct (is_space c); [exact IH|]. now rewrite toLowerCase_String.
Qed.

Lemma trimEnd_toLowerCase (s : string) :
  trimEnd (toLowerCase s) = toLowerCase (trimEnd s).
Proof.
  induction s as [|c s IH]; [reflexivity|].
  rewrite toLowerCase_String. cbn [trimEnd]. rewrite IH.
  destruct (trimEnd s) as [|d t].
  - change (toLowerCase "") with "". rewrite lower_is_space.
    destruct (is_space c); [reflexivity|]. now rewrite toLowerCase_String.
  - now rewrite !toLowerCase_String.
Qed.

Lemma trim_toLowerCase (s : string) : trim (toLowerCase s) = toLowerCase (trim s).
Proof. unfold trim. now rewrite trimStart_toLowerCase, trimEnd_toLowerCase. Qed.

Lemma trimStart_split (s : string) :
  exists l : string, s = l +:+ trimStart s /\ all_space l = true.
Proof.
  induction s as [|c s (l & Hl & Hsp)]; [now exists ""|].
  cbn [trimStart]. destruct (is_space c) eqn:Hc.
  - exists (String c l). rewrite append_String, <- Hl. cbn. now rewrite Hc, Hsp.
  - now exists "".
Qed.

Lemma trimEnd_split (s : string) :
  exists r : string, s = trimEnd s +:+ r /\ all_space r = true.
Proof.
  induction s as [|c s (r & Hr & Hsp)]; [now exists ""|].
  cbn [trimEnd]. destruct (trimEnd s) as [|d t] eqn:Ht.
  - rewrite append_empty in Hr. subst r.
    destruct (is_space c) eqn:Hc.
    + exists (String c s). cbn. now rewrite Hc, Hsp.
    + now exists s.
  - exists r. rewrite append_String, <- Hr. auto.
Qed.

Lemma toLowerCase_same_letters (a b : string) :
  toLowerCase a = toLowerCase b -> same_letters a b = true.
Proof.
  revert b. induction a as [|x a IH]; intros [|y b];
    rewrite ?toLowerCase_String; try discriminate; [reflexivity|].
  intros H. injection H as Hxy Hab. cbn [same_letters].
  rewrite Hxy, Ascii.eqb_refl. cbn. auto.
Qed.

(** The specification's relation is exactly "same normal form". *)
Lemma normal_form_equal_iff (e1 e2 : string) :
  equal_up_to_case_and_space e1 e2 <->
  trim (toLowerCase e1) = trim (toLowerCase e2).
Proof.
  split; [apply normal_form_equal|].
  rewrite !trim_toLowerCase. intros H%toLowerCase_same_letters.
  destruct (trimStart_split e1) as (l1 & H1 & Hl1).
  destruct (trimEnd_split (trimStart e1)) as (r1 & H1' & Hr1).
  destruct (trimStart_split e2) as (l2 & H2 & Hl2).
  destruct (trimEnd_split (trimStart e2)) as (r2 & H2' & Hr2).
  exists l1, (trim e1), r1, l2, (trim e2), r2. unfold trim in *.
  rewrite <- H1', <- H2'. auto 10.
Qed.

End Normalization.

Lemma profiles_with_email_new (e : string) (rows : list Profile) (row : Profile) :
  profiles_with_email e rows = [] -> p_email row = e ->
  profiles_with_email e (rows ++ [row]) = [row].
Proof.
  unfold profiles_with_email. intros H <-.
  rewrite List.filter_app, H. cbn. now rewrite String.eqb_refl.
Qed.

(** Sign-up as ["Foo@Bar.com "], then login as ["foo@bar.com"]: the login
    resolves to the user the sign-up created. *)
Example signup_then_login_sample :
  fst (createTableUser "Foo@Bar.com " "pw" "Foo" "Bar" new_employee None sample_world) =
    Returned (mkCreateUserResult true (Some "user-0000") (Some "profile-0000") None) /\
  fst (tableLogin "foo@bar.com" "pw"
         (snd (createTableUser "Foo@Bar.com " "pw" "Foo" "Bar" new_employee None
                 sample_world))) =
    Returned (mkLoginResult true
                (Some (mkTableUser "user-0000" "profile-0000" "foo@bar.com"
                         "Foo" "Bar" employee)) None).
Proof. split; reflexivity. Qed.


(* ===================================================================== *)
(** * Further properties of the session operations *)
(* ===================================================================== *)

(** ** Login *)

(** Closes a goal about a sample world by evaluation. *)
Ltac by_evaluation :=
  first [ reflexivity | discriminate | (repeat split; reflexivity)
        | (vm_compute; discriminate) ].

(** The path of a successful login. *)
Lemma tableLogin_success_path (email password : string) (w : World) (result : LoginResult) :
  fst (tableLogin email password w) = Returned result ->
  lr_success result = true ->
  exists (profile : Profile) (password_hash : string) (roleData : RoleRow),
    profiles_with_email (Js.trim (Js.toLowerCase email)) (profiles w) = [profile] /\
    Js.truthy_string (p_password_hash profile) = Some password_hash /\
    Js.truthy_bool (verify_password w password password_hash) = true /\
    roles_of_user (p_user_id profile) (user_roles w) = [roleData] /\
    result =
      mkLoginResult true
        (Some (mkTableUser (p_user_id profile) (p_id profile) (p_email profile)
                 (p_first_name profile) (p_last_name profile) (r_role roleData)))
        None /\
    user_sessions (snd (tableLogin email password w)) =
      user_sessions w ++ [session_of profile w] /\
    localStorage (snd (tableLogin email password w)) = stored_login profile w.
Proof.
  unfold tableLogin, generateSessionToken. unfold_eff. cbn.
  repeat (break_match; cbn in *); try discriminate;
    intros Hret Hs; injection Hret as <-; try discriminate Hs.
  do 3 eexists. repeat split; try eassumption; try reflexivity.
  now apply negb_false_iff.
Qed.

Lemma tableLogin_error_messages (email password : string) (w : World) (result : LoginResult) :
  fst (tableLogin email password w) = Returned result ->
  lr_success result = false ->
  lr_user result = None /\
  exists message : string,
    lr_error result = Some message /\
    In message
      ["Login failed. Please try again."; "Invalid email or password";
       "Account not properly configured. Please contact admin.";
       "User role not found"; "Failed to create session"].
Proof.
  unfold tableLogin, generateSessionToken. unfold_eff. cbn.
  repeat (break_match; cbn in *); try discriminate;
    intros Hret Hs; injection Hret as <-; try discriminate Hs;
    (split; [reflexivity|]); eexists; (split; [reflexivity|]); cbn; tauto.
Qed.

(** X1. Every [tableLogin] call returns a result of one of two shapes,
    whatever the remote calls do.  A success carries no error and the view
    of a Profile row whose email is the normalized address, with the role of
    a [user_roles] row of that user.  A failure carries no user and one of
    five fixed messages: the message of a failed remote call is logged, never
    returned. *)
Theorem tableLogin_result_shape (email password : string) (w : World) :
  exists result : LoginResult,
    fst (tableLogin email password w) = Returned result /\
    ((lr_success result = true /\ lr_error result = None /\
      exists (profile : Profile) (roleData : RoleRow),
        In profile (profiles w) /\
        p_email profile = Js.trim (Js.toLowerCase email) /\
        In roleData (user_roles w) /\
        r_user_id roleData = p_user_id profile /\
        lr_user result =
          Some (mkTableUser (p_user_id profile) (p_id profile) (p_email profile)
                  (p_first_name profile) (p_last_name profile) (r_role roleData))) \/
     (lr_success result = false /\ lr_user result = None /\
      exists message : string,
        lr_error result = Some message /\
        In message
          ["Login failed. Please try again."; "Invalid email or password";
           "Account not properly configured. Please contact admin.";
           "User role not found"; "Failed to create session"])).
Proof.
  destruct (tableLogin_effects email password w) as (result & Hret & _).
  exists result. split; [exact Hret|].
  destruct (lr_success result) eqn:Hs; [left | right].
  - destruct (tableLogin_success_path email password w result Hret Hs)
      as (profile & h & roleData & Hp & _ & _ & Hr & -> & _).
    split; [reflexivity|]. split; [reflexivity|]. exists profile, roleData.
    assert (Hin : In profile
                    (profiles_with_email (Js.trim (Js.toLowerCase email)) (profiles w)))
      by (rewrite Hp; now left).
    assert (Hin2 : In roleData (roles_of_user (p_user_id profile) (user_roles w)))
      by (rewrite Hr; now left).
    apply List.filter_In in Hin as [Hin He]. apply List.filter_In in Hin2 as [Hin2 Hu].
    apply String.eqb_eq in He. apply String.eqb_eq in Hu.
    repeat split; assumption.
  - split; [reflexivity|].
    exact (tableLogin_error_messages email password w result Hret Hs).
Qed.

Lemma getSessionUser_returns (w : World) :
  exists result : option TableUser, fst (getSessionUser w) = Returned result.
Proof.
  unfold getSessionUser. unfold_eff. cbn.
  repeat (break_match; cbn in *); try discriminate; eexists; reflexivity.
Qed.

(** ** The session check *)

(** X3. What [getSessionUser] can do to the world, whatever the remote
    calls do: it returns (it never throws); it leaves [profiles] and
    [user_roles] as they are; the only rows of [user_sessions] it can delete
    are those of the stored token, and only when that token resolved to one
    row whose expiry has passed; the session store is left as it is or loses
    exactly its two keys; and a call that returns a user has written
    nothing. *)
Theorem getSessionUser_footprint (w : World) :
  exists result : option TableUser,
    fst (getSessionUser w) = Returned result /\
    profiles (snd (getSessionUser w)) = profiles w /\
    user_roles (snd (getSessionUser w)) = user_roles w /\
    (user_sessions (snd (getSessionUser w)) = user_sessions w \/
     exists sessionToken session : _,
       Js.truthy_string (localStorage w !! hrms_session_token) = Some sessionToken /\
       sessions_with_token sessionToken (user_sessions w) = [session] /\
       (s_expires_at session <? now w)%Z = true /\
       user_sessions (snd (getSessionUser w)) =
         List.filter (fun s => negb (String.eqb (s_session_token s) sessionToken))
           (user_sessions w)) /\
    (localStorage (snd (getSessionUser w)) = localStorage w \/
     localStorage (snd (getSessionUser w)) =
       delete hrms_user_id (delete hrms_session_token (localStorage w))) /\
    (forall user : TableUser, result = Some user ->
       same_stores w (snd (getSessionUser w))).
Proof.
  unfold getSessionUser, same_stores. unfold_eff. cbn.
  repeat (break_match; cbn in *); try discriminate;
    (eexists; split; [reflexivity|]; cbn);
    (split; [reflexivity|]); (split; [reflexivity|]);
    (split; [first [left; reflexivity | right; do 2 eexists; repeat split; eassumption]|]);
    (split; [first [left; reflexivity | right; reflexivity]|]);
    intros user Hu; try discriminate Hu; repeat split.
Qed.

Lemma cleared_after_removal (m : gmap string string) (w : World) :
  localStorage w = delete hrms_user_id (delete hrms_session_token m) ->
  session_store_cleared w.
Proof.
  intros H. unfold session_store_cleared. rewrite H.
  split; [apply cleared_lookup_token | apply cleared_lookup_user].
Qed.

(** X4. A stored token that does not resolve to one Session row (the
    lookup completes with no row or with several, or resolves to an error)
    is dropped: the call returns none, both session-store keys are removed,
    and the three tables are as they were. *)
Theorem getSessionUser_unknown_token (w : World) (sessionToken : string) :
  Js.truthy_string (localStorage w !! hrms_session_token) = Some sessionToken ->
  (fault_at 0 w = Completes /\
   List.length (sessions_with_token sessionToken (user_sessions w)) <> 1) \/
  (exists message : string, fault_at 0 w = Errors message) ->
  fst (getSessionUser w) = Returned None /\
  session_store_cleared (snd (getSessionUser w)) /\
  profiles (snd (getSessionUser w)) = profiles w /\
  user_roles (snd (getSessionUser w)) = user_roles w /\
  user_sessions (snd (getSessionUser w)) = user_sessions w.
Proof.
  intros Htok [[F0 Hrows] | [message F0]]; unfold getSessionUser, session_store_cleared.
  - destruct (sessions_with_token sessionToken (user_sessions w)) as [|s [|s' l]] eqn:Hs;
      [| cbn in Hrows; congruence |]; run;
      repeat split; auto using cleared_lookup_token, cleared_lookup_user.
  - run. repeat split; auto using cleared_lookup_token, cleared_lookup_user.
Qed.

Lemma getSessionUser_unknown_token_witness :
  fst (getSessionUser stale_token_world) = Returned None /\
  session_store_cleared (snd (getSessionUser stale_token_world)).
Proof.
  destruct (getSessionUser_unknown_token stale_token_world alice_token)
    as (Hnone & Hcleared & _).
  - reflexivity.
  - left. split; [reflexivity | vm_compute; discriminate].
  - split; [exact Hnone | exact Hcleared].
Defined.

(** X5. An unexpired session whose Profile row is not found resolves to
    nobody, and unlike an unknown or expired token it is left in place: the
    Session row and both session-store keys stay, so every later check pays
    the same two lookups. *)
Theorem getSessionUser_orphaned_session
    (w : World) (sessionToken : string) (session : SessionRow) :
  Js.truthy_string (localStorage w !! hrms_session_token) = Some sessionToken ->
  fault_at 0 w = Completes ->
  sessions_with_token sessionToken (user_sessions w) = [session] ->
  (s_expires_at session <? now w)%Z = false ->
  fault_at 1 w = Completes ->
  profiles_with_id (s_profile_id session) (profiles w) = [] ->
  fst (getSessionUser w) = Returned None /\
  same_stores w (snd (getSessionUser w)).
Proof.
  intros Htok F0 Hs Hexp F1 Hp. unfold getSessionUser, same_stores. run.
  repeat split.
Qed.

Lemma getSessionUser_orphaned_session_witness :
  fst (getSessionUser orphan_world) = Returned None /\
  same_stores orphan_world (snd (getSessionUser orphan_world)).
Proof.
  apply (getSessionUser_orphaned_session orphan_world alice_token alice_session);
    reflexivity.
Defined.

(** A valid session is resolved without writing anything. *)
Lemma getSessionUser_resolves
    (w : World) (sessionToken : string) (session : SessionRow)
    (profile : Profile) (roleData : RoleRow) :
  Js.truthy_string (localStorage w !! hrms_session_token) = Some sessionToken ->
  fault_at 0 w = Completes ->
  sessions_with_token sessionToken (user_sessions w) = [session] ->
  (now w <= s_expires_at session)%Z ->
  fault_at 1 w = Completes ->
  profiles_with_id (s_profile_id session) (profiles w) = [profile] ->
  fault_at 2 w = Completes ->
  roles_of_user (p_user_id profile) (user_roles w) = [roleData] ->
  fst (getSessionUser w) =
    Returned (Some (mkTableUser (p_user_id profile) (p_id profile) (p_email profile)
                      (p_first_name profile) (p_last_name profile) (r_role roleData))) /\
  same_stores w (snd (getSessionUser w)).
Proof.
  intros Htok F0 Hs Hle F1 Hp F2 Hr.
  assert (Hexp : (s_expires_at session <? now w)%Z = false) by (apply Z.ltb_ge; lia).
  clear Hle. unfold getSessionUser, same_stores. run. repeat split.
Qed.

Lemma truthy_string_Some (s : string) :
  s <> "" -> Js.truthy_string (Some s) = Some s.
Proof. destruct s; [congruence | reflexivity]. Qed.

Lemma token_not_empty (w : World) : hex_of_bytes (random32 w) <> "".
Proof.
  intros H. pose proof (hex_of_bytes_length (random32 w)) as Hl.
  rewrite H, random32_length in Hl. discriminate Hl.
Qed.

Lemma filter_singleton {A : Type} (f : A -> bool) (l : list A) (x : A) :
  In x (List.filter f l) -> List.length (List.filter f l) = 1 -> List.filter f l = [x].
Proof.
  destruct (List.filter f l) as [|y [|z t]]; cbn; [tauto| |discriminate].
  intros [-> | []] _. reflexivity.
Qed.

Lemma sessions_with_token_new (t : string) (rows : list SessionRow) (row : SessionRow) :
  sessions_with_token t rows = [] -> s_session_token row = t ->
  sessions_with_token t (rows ++ [row]) = [row].
Proof.
  unfold sessions_with_token. intros H <-.
  rewrite List.filter_app, H. cbn. now rewrite String.eqb_refl.
Qed.

Lemma profile_found_by_id (profile : Profile) (e : string) (rows : list Profile) :
  profiles_with_email e rows = [profile] ->
  List.length (profiles_with_id (p_id profile) rows) = 1 ->
  profiles_with_id (p_id profile) rows = [profile].
Proof.
  unfold profiles_with_email, profiles_with_id. intros He Hl.
  apply filter_singleton; [|exact Hl].
  apply List.filter_In. split; [|apply String.eqb_refl].
  assert (Hin : In profile (List.filter (fun p => String.eqb (p_email p) e) rows))
    by (rewrite He; now left).
  now apply List.filter_In in Hin.
Qed.

Lemma plus_seven_days_offsets (zone : Js.TimeZone) (t : Z) :
  Js.plus_seven_days zone t =
  (t + 7 * Js.ms_per_day +
   (Js.offset_at_utc zone t -
    Js.offset_at_local zone (t + Js.offset_at_utc zone t + 7 * Js.ms_per_day)))%Z.
Proof. unfold Js.plus_seven_days. cbv zeta. lia. Qed.

(** X2. Login, then session check.  After a login that returned a user,
    a session check made on the stores it left (no other session has the new
    token, the Profile id is unique, the three lookups complete) returns that
    same user as long as the clock is at most the expiry, the last
    millisecond included, and returns none once it is later.  The expiry is
    seven local calendar days after the login: seven days of 24 hours, plus
    the zone's offset at the login, minus the offset the local expiry time is
    read with (an hour more across an autumn clock change, an hour less
    across a spring one, nothing when the clocks did not change). *)
Theorem tableLogin_then_getSessionUser
    (email password : string) (w w2 : World) (result : LoginResult) (user : TableUser) :
  fst (tableLogin email password w) = Returned result ->
  lr_user result = Some user ->
  sessions_with_token (hex_of_bytes (random32 w)) (user_sessions w) = [] ->
  List.length (profiles_with_id (tu_profileId user) (profiles w)) = 1 ->
  same_stores (snd (tableLogin email password w)) w2 ->
  fault_at 0 w2 = Completes -> fault_at 1 w2 = Completes -> fault_at 2 w2 = Completes ->
  ((now w2 <=
    now w + 7 * Js.ms_per_day +
    (Js.offset_at_utc (zone w) (now w) -
     Js.offset_at_local (zone w)
       (now w + Js.offset_at_utc (zone w) (now w) + 7 * Js.ms_per_day)))%Z ->
     fst (getSessionUser w2) = Returned (Some user)) /\
  ((now w + 7 * Js.ms_per_day +
    (Js.offset_at_utc (zone w) (now w) -
     Js.offset_at_local (zone w)
       (now w + Js.offset_at_utc (zone w) (now w) + 7 * Js.ms_per_day)) < now w2)%Z ->
     fst (getSessionUser w2) = Returned None).
Proof.
  intros Hret Huser Hfresh Hkey (Hp2 & Hr2 & Hs2 & Hl2) F0 F1 F2.
  rewrite <- plus_seven_days_offsets.
  assert (Hs : lr_success result = true).
  { destruct (lr_success result) eqn:E; [reflexivity|].
    destruct (tableLogin_error_messages _ _ _ _ Hret E) as [Hnone _]. congruence. }
  destruct (tableLogin_success_path _ _ _ _ Hret Hs)
    as (profile & h & roleData & He & _ & _ & Hrole & -> & Hrows & Hls).
  destruct (tableLogin_effects email password w) as (r & _ & Hp & Hr & _).
  cbn in Huser. injection Huser as <-. cbn in Hkey.
  rewrite Hp in Hp2. rewrite Hr in Hr2. rewrite Hrows in Hs2. rewrite Hls in Hl2.
  assert (Htok : Js.truthy_string (localStorage w2 !! hrms_session_token) =
                 Some (hex_of_bytes (random32 w))).
  { rewrite Hl2, stored_login_token. apply truthy_string_Some, token_not_empty. }
  assert (Hsess : sessions_with_token (hex_of_bytes (random32 w)) (user_sessions w2) =
                  [session_of profile w]).
  { rewrite Hs2. now apply sessions_with_token_new. }
  split; intros Hnow.
  - apply (getSessionUser_resolves w2 (hex_of_bytes (random32 w))
             (session_of profile w) profile roleData);
      auto.
    + rewrite Hp2. cbn. exact (profile_found_by_id _ _ _ He Hkey).
    + now rewrite Hr2.
  - apply (getSessionUser_expired_none w2 (hex_of_bytes (random32 w))
             (session_of profile w)); auto.
    apply Z.ltb_lt. exact Hnow.
Qed.

Lemma tableLogin_then_getSessionUser_witness :
  fst (getSessionUser (set_now (1000 + 7 * Js.ms_per_day + 1800000) autumn_logged_in)) =
    Returned (Some (mkTableUser "u-1" "p-1" "a@b.com" "Alice" "Ames" hr)) /\
  fst (getSessionUser (set_now (1000 + 7 * Js.ms_per_day + 3600001) autumn_logged_in)) =
    Returned None /\
  fst (getSessionUser expired_world) = Returned None.
Proof.
  split; [|split].
  - apply (tableLogin_then_getSessionUser "a@b.com" "secret" autumn_world
             (set_now (1000 + 7 * Js.ms_per_day + 1800000) autumn_logged_in)
             (mkLoginResult true
                (Some (mkTableUser "u-1" "p-1" "a@b.com" "Alice" "Ames" hr)) None));
      try by_evaluation.
  - apply (tableLogin_then_getSessionUser "a@b.com" "secret" autumn_world
             (set_now (1000 + 7 * Js.ms_per_day + 3600001) autumn_logged_in)
             (mkLoginResult true
                (Some (mkTableUser "u-1" "p-1" "a@b.com" "Alice" "Ames" hr)) None)
             (mkTableUser "u-1" "p-1" "a@b.com" "Alice" "Ames" hr));
      try by_evaluation.
  - apply (tableLogin_then_getSessionUser "a@b.com" "secret" sample_world expired_world
             (mkLoginResult true
                (Some (mkTableUser "u-1" "p-1" "a@b.com" "Alice" "Ames" hr)) None)
             (mkTableUser "u-1" "p-1" "a@b.com" "Alice" "Ames" hr));
      try by_evaluation.
Defined.

(** ** Logout *)

Lemma sessions_delete_new (t : string) (rows : list SessionRow) (row : SessionRow) :
  sessions_with_token t rows = [] -> s_session_token row = t ->
  List.filter (fun s => negb (String.eqb (s_session_token s) t)) (rows ++ [row]) = rows.
Proof.
  unfold sessions_with_token. intros H <-.
  rewrite List.filter_app. cbn. rewrite String.eqb_refl. cbn.
  rewrite List.app_nil_r.
  induction rows as [|s l IH]; [reflexivity|]. cbn in *.
  destruct (String.eqb (s_session_token s) (s_session_token row)); [discriminate|].
  cbn. now rewrite IH.
Qed.

(** X6. Login, then logout.  When the delete call completes, a logout
    after a successful login undoes what the login wrote: [user_sessions] is
    again what it was before the login, [profiles] and [user_roles] never
    changed, both session-store keys are gone and a session check returns
    none. *)
Theorem tableLogin_then_tableLogout
    (email password : string) (w w2 : World) (result : LoginResult) :
  fst (tableLogin email password w) = Returned result ->
  lr_success result = true ->
  sessions_with_token (hex_of_bytes (random32 w)) (user_sessions w) = [] ->
  same_stores (snd (tableLogin email password w)) w2 ->
  fault_at 0 w2 = Completes ->
  fst (tableLogout w2) = Returned tt /\
  user_sessions (snd (tableLogout w2)) = user_sessions w /\
  profiles (snd (tableLogout w2)) = profiles w /\
  user_roles (snd (tableLogout w2)) = user_roles w /\
  session_store_cleared (snd (tableLogout w2)) /\
  fst (getSessionUser (snd (tableLogout w2))) = Returned None.
Proof.
  intros Hret Hs Hfresh (Hp2 & Hr2 & Hs2 & Hl2) F0.
  destruct (tableLogin_success_inv _ _ _ _ Hret Hs) as (profile & Hrows & Hls).
  destruct (tableLogin_effects email password w) as (r & _ & Hp & Hr & _).
  rewrite Hp in Hp2. rewrite Hr in Hr2. rewrite Hrows in Hs2. rewrite Hls in Hl2.
  assert (Htok : Js.truthy_string (localStorage w2 !! hrms_session_token) =
                 Some (hex_of_bytes (random32 w))).
  { rewrite Hl2, stored_login_token. apply truthy_string_Some, token_not_empty. }
  assert (Hrun :
    fst (tableLogout w2) = Returned tt /\
    user_sessions (snd (tableLogout w2)) =
      List.filter
        (fun s => negb (String.eqb (s_session_token s) (hex_of_bytes (random32 w))))
        (user_sessions w2) /\
    profiles (snd (tableLogout w2)) = profiles w2 /\
    user_roles (snd (tableLogout w2)) = user_roles w2 /\
    localStorage (snd (tableLogout w2)) =
      delete hrms_user_id (delete hrms_session_token (localStorage w2))).
  { clear Hl2 Hs2. unfold tableLogout. run. repeat split. }
  destruct Hrun as (Hret2 & Hs3 & Hp3 & Hr3 & Hl3).
  assert (Hcleared : session_store_cleared (snd (tableLogout w2)))
    by exact (cleared_after_removal _ _ Hl3).
  split; [exact Hret2|]. split.
  { rewrite Hs3, Hs2. now apply sessions_delete_new. }
  split; [congruence|]. split; [congruence|]. split; [exact Hcleared|].
  now apply getSessionUser_cleared.
Qed.

Lemma tableLogin_then_tableLogout_witness :
  fst (tableLogout logged_in_world) = Returned tt /\
  user_sessions (snd (tableLogout logged_in_world)) = [] /\
  fst (getSessionUser (snd (tableLogout logged_in_world))) = Returned None.
Proof.
  destruct (tableLogin_then_tableLogout "a@b.com" "secret" sample_world logged_in_world
              (mkLoginResult true
                 (Some (mkTableUser "u-1" "p-1" "a@b.com" "Alice" "Ames" hr)) None))
    as (Hret & Hs & _ & _ & _ & Hnone); [by_evaluation .. |].
  split; [exact Hret|]. split; [exact Hs | exact Hnone].
Defined.

(** X7. [tableLogout] throws in exactly one case: a non-empty token is
    stored and the delete call rejects.  When it throws, nothing has been
    written: the tables and the session store are as they were. *)
Theorem tableLogout_throws_iff (w : World) :
  (fst (tableLogout w) = Thrown <->
   (exists sessionToken : string,
      Js.truthy_string (localStorage w !! hrms_session_token) = Some sessionToken) /\
   fault_at 0 w = Rejects) /\
  (fst (tableLogout w) = Thrown -> same_stores w (snd (tableLogout w))).
Proof.
  unfold tableLogout, same_stores. unfold_eff. cbn.
  destruct (Js.truthy_string (localStorage w !! hrms_session_token)) eqn:Htok;
    [destruct (fault_at 0 w) eqn:F0|]; cbn; unfold fault_at in *; cbn in *;
    rewrite ?F0; cbn; (split; [split|]); try discriminate;
    try solve [intros [[? ?] ?]; discriminate | intros [_ ?]; discriminate];
    try solve [intros; repeat split]; eauto.
Qed.

(** ** Sign-up *)

Lemma createTableUser_success_path
    (email password firstName lastName : string) (role : NewRole)
    (additionalData : option AdditionalData) (w : World) (result : CreateUserResult) :
  fst (createTableUser email password firstName lastName role additionalData w) =
    Returned result ->
  cr_success result = true ->
  exists passwordHash : string,
    Js.truthy_string (hash_password w password) = Some passwordHash /\
    profiles (snd (createTableUser email password firstName lastName role
                     additionalData w)) =
      profiles w ++
        [new_profile_row email firstName lastName passwordHash
           (uuids w (uuid_pos w)) additionalData (now w) (db_ids w (db_id_pos w))] /\
    user_roles (snd (createTableUser email password firstName lastName role
                       additionalData w)) =
      user_roles w ++ [mkRoleRow (uuids w (uuid_pos w)) (role_of_new role)] /\
    result =
      mkCreateUserResult true (Some (uuids w (uuid_pos w)))
        (Some (db_ids w (db_id_pos w))) None.
Proof.
  unfold createTableUser. unfold_eff. cbn.
  repeat (break_match; cbn in *); try discriminate;
    intros Hret Hs; injection Hret as <-; try discriminate Hs;
    repeat match goal with H : Returned _ = Returned _ |- _ => injection H as <- end;
    eexists; repeat split; eassumption.
Qed.

(** X8. What [createTableUser] can leave behind, whatever the remote
    calls do.  It returns, and never touches [user_sessions] or the session
    store.  A failure reports neither id and adds no Role row.  It leaves
    [profiles] as it was, with two exceptions, both after a Profile insert
    that went through: when the Role insert resolved to an error and the
    rollback delete completed, the rows with the new id are gone; when the
    Role insert rejected (no rollback is tried then), or resolved to an error
    and the rollback delete did not complete, the new Profile row stays,
    without a role. *)
Theorem createTableUser_failure_effects
    (email password firstName lastName : string) (role : NewRole)
    (additionalData : option AdditionalData) (w : World) :
  exists result : CreateUserResult,
    fst (createTableUser email password firstName lastName role additionalData w) =
      Returned result /\
    user_sessions (snd (createTableUser email password firstName lastName role
                          additionalData w)) = user_sessions w /\
    localStorage (snd (createTableUser email password firstName lastName role
                         additionalData w)) = localStorage w /\
    (cr_success result = false ->
     cr_userId result = None /\ cr_profileId result = None /\
     user_roles (snd (createTableUser email password firstName lastName role
                        additionalData w)) = user_roles w /\
     (profiles (snd (createTableUser email password firstName lastName role
                       additionalData w)) = profiles w \/
      ((exists message : string, fault_at 3 w = Errors message) /\
       fault_at 4 w = Completes /\
       profiles (snd (createTableUser email password firstName lastName role
                        additionalData w)) =
         List.filter (fun p => negb (String.eqb (p_id p) (db_ids w (db_id_pos w))))
           (profiles w)) \/
      ((fault_at 3 w = Rejects \/
        ((exists message : string, fault_at 3 w = Errors message) /\
         fault_at 4 w <> Completes)) /\
       exists passwordHash : string,
         Js.truthy_string (hash_password w password) = Some passwordHash /\
         profiles (snd (createTableUser email password firstName lastName role
                          additionalData w)) =
           profiles w ++
             [new_profile_row email firstName lastName passwordHash
                (uuids w (uuid_pos w)) additionalData (now w)
                (db_ids w (db_id_pos w))]))).
Proof.
  unfold createTableUser. unfold_eff. unfold fault_at. cbn.
  repeat (break_match; cbn in *); try discriminate;
    (eexists; split; [reflexivity|]; cbn);
    (split; [reflexivity|]); (split; [reflexivity|]);
    intros Hs; try discriminate Hs;
    repeat match goal with H : Returned _ = Returned _ |- _ => injection H as <- end;
    (split; [reflexivity|]); (split; [reflexivity|]); (split; [reflexivity|]);
    first [ left; reflexivity
          | right; left; split; [eexists; reflexivity|]; split; [reflexivity|];
            rewrite filter_out_last by reflexivity; reflexivity
          | right; right; split;
            [ first [ left; reflexivity
                    | right; split; [eexists; reflexivity | discriminate] ]
            | eexists; split; reflexivity ] ].
Qed.

Lemma truthy_string_idem (v : option string) (s : string) :
  Js.truthy_string v = Some s -> Js.truthy_string (Some s) = Some s.
Proof.
  unfold Js.truthy_string.
  destruct v as [[|c t]|]; intros H; try discriminate H.
  injection H as <-. reflexivity.
Qed.

Lemma roles_of_user_new (u : string) (rows : list RoleRow) (row : RoleRow) :
  roles_of_user u rows = [] -> r_user_id row = u ->
  roles_of_user u (rows ++ [row]) = [row].
Proof.
  unfold roles_of_user. intros H <-.
  rewrite List.filter_app, H. cbn. now rewrite String.eqb_refl.
Qed.

(** The login of a known account with an accepted password. *)
Lemma tableLogin_accepts
    (email password : string) (w : World) (profile : Profile)
    (password_hash : string) (roleData : RoleRow) :
  fault_at 0 w = Completes ->
  profiles_with_email (Js.trim (Js.toLowerCase email)) (profiles w) = [profile] ->
  Js.truthy_string (p_password_hash profile) = Some password_hash ->
  fault_at 1 w = Completes ->
  Js.truthy_bool (verify_password w password password_hash) = true ->
  fault_at 2 w = Completes ->
  roles_of_user (p_user_id profile) (user_roles w) = [roleData] ->
  fault_at 3 w = Completes ->
  storage_at 0 w = Stored -> storage_at 1 w = Stored ->
  fst (tableLogin email password w) =
    Returned (mkLoginResult true
                (Some (mkTableUser (p_user_id profile) (p_id profile) (p_email profile)
                         (p_first_name profile) (p_last_name profile)
                         (r_role roleData)))
                None).
Proof.
  intros F0 Hp Hh F1 Hv F2 Hr F3 S0 S1. unfold tableLogin, generateSessionToken.
  run. reflexivity.
Qed.

(** The same login whatever the session store does: it fails, after the
    Session insert, when one of the two [setItem] calls throws. *)
Lemma tableLogin_accepts_or_quota
    (email password : string) (w : World) (profile : Profile)
    (password_hash : string) (roleData : RoleRow) :
  fault_at 0 w = Completes ->
  profiles_with_email (Js.trim (Js.toLowerCase email)) (profiles w) = [profile] ->
  Js.truthy_string (p_password_hash profile) = Some password_hash ->
  fault_at 1 w = Completes ->
  Js.truthy_bool (verify_password w password password_hash) = true ->
  fault_at 2 w = Completes ->
  roles_of_user (p_user_id profile) (user_roles w) = [roleData] ->
  fault_at 3 w = Completes ->
  fst (tableLogin email password w) =
    Returned
      match storage_at 0 w, storage_at 1 w with
      | Stored, Stored =>
          mkLoginResult true
            (Some (mkTableUser (p_user_id profile) (p_id profile) (p_email profile)
                     (p_first_name profile) (p_last_name profile) (r_role roleData)))
            None
      | _, _ => mkLoginResult false None (Some "Login failed. Please try again.")
      end.
Proof.
  intros F0 Hp Hh F1 Hv F2 Hr F3. unfold tableLogin, generateSessionToken.
  destruct (storage_at 0 w) eqn:S0; [destruct (storage_at 1 w) eqn:S1|];
    run; reflexivity.
Qed.

(** X9. Sign-up, then login.  After a successful sign-up of an address
    that was not registered (and a user id that had no role), a login with
    any spelling of the address that normalizes alike and the same password
    (the service verifying what it hashed, the four calls completing)
    succeeds as the user the sign-up reported: same user id and Profile id,
    the normalized address, the given names and the given role.  The one
    way it can still fail is a session-store write that throws: the answer
    is then ["Login failed. Please try again."]. *)
Theorem createTableUser_then_tableLogin
    (email email2 password firstName lastName : string) (role : NewRole)
    (additionalData : option AdditionalData) (w w2 : World)
    (result : CreateUserResult) :
  fst (createTableUser email password firstName lastName role additionalData w) =
    Returned result ->
  cr_success result = true ->
  profiles_with_email (Js.trim (Js.toLowerCase email)) (profiles w) = [] ->
  roles_of_user (uuids w (uuid_pos w)) (user_roles w) = [] ->
  Js.trim (Js.toLowerCase email2) = Js.trim (Js.toLowerCase email) ->
  same_stores (snd (createTableUser email password firstName lastName role
                      additionalData w)) w2 ->
  fault_at 0 w2 = Completes -> fault_at 1 w2 = Completes ->
  fault_at 2 w2 = Completes -> fault_at 3 w2 = Completes ->
  (forall passwordHash : string,
     Js.truthy_string (hash_password w password) = Some passwordHash ->
     Js.truthy_bool (verify_password w2 password passwordHash) = true) ->
  fst (tableLogin email2 password w2) =
    Returned
      match storage_at 0 w2, storage_at 1 w2 with
      | Stored, Stored =>
          mkLoginResult true
            (Some (mkTableUser (uuids w (uuid_pos w)) (db_ids w (db_id_pos w))
                     (Js.trim (Js.toLowerCase email)) firstName lastName
                     (role_of_new role)))
            None
      | _, _ => mkLoginResult false None (Some "Login failed. Please try again.")
      end /\
  cr_userId result = Some (uuids w (uuid_pos w)) /\
  cr_profileId result = Some (db_ids w (db_id_pos w)).
Proof.
  intros Hret Hs Hnone Hfresh Hnorm (Hp2 & Hr2 & _ & _) F0 F1 F2 F3 Hverify.
  destruct (createTableUser_success_path _ _ _ _ _ _ _ _ Hret Hs)
    as (h & Hh & Hp & Hr & ->).
  rewrite Hp in Hp2. rewrite Hr in Hr2.
  split; [|split; reflexivity].
  apply (tableLogin_accepts_or_quota email2 password w2
           (new_profile_row email firstName lastName h (uuids w (uuid_pos w))
              additionalData (now w) (db_ids w (db_id_pos w)))
           h (mkRoleRow (uuids w (uuid_pos w)) (role_of_new role))); auto.
  - rewrite Hp2, Hnorm. now apply profiles_with_email_new.
  - exact (truthy_string_idem _ _ Hh).
  - rewrite Hr2. now apply roles_of_user_new.
Qed.

Lemma createTableUser_then_tableLogin_witness :
  fst (tableLogin "new@x.org" "pw"
         (snd (createTableUser "New@X.org " "pw" "Nia" "Xu" new_hr None sample_world))) =
    Returned (mkLoginResult true
                (Some (mkTableUser "user-0000" "profile-0000" "new@x.org" "Nia" "Xu" hr))
                None).
Proof.
  destruct (createTableUser_then_tableLogin "New@X.org " "new@x.org" "pw" "Nia" "Xu"
              new_hr None sample_world
              (snd (createTableUser "New@X.org " "pw" "Nia" "Xu" new_hr None sample_world))
              (mkCreateUserResult true (Some "user-0000") (Some "profile-0000") None))
    as (Hlogin & _); [by_evaluation .. | |].
  - intros passwordHash H. injection H as <-. reflexivity.
  - exact Hlogin.
Defined.

(** ** The address, from sign-up to login *)

(** A sign-up for an address nobody has, every call completing. *)
Lemma createTableUser_creates
    (email password firstName lastName : string) (role : NewRole)
    (additionalData : option AdditionalData) (w : World) (passwordHash : string) :
  fault_at 0 w = Completes ->
  profiles_with_email (Js.trim (Js.toLowerCase email)) (profiles w) = [] ->
  fault_at 1 w = Completes ->
  Js.truthy_string (hash_password w password) = Some passwordHash ->
  fault_at 2 w = Completes ->
  fault_at 3 w = Completes ->
  fst (createTableUser email password firstName lastName role additionalData w) =
    Returned (mkCreateUserResult true (Some (uuids w (uuid_pos w)))
                (Some (db_ids w (db_id_pos w))) None) /\
  profiles (snd (createTableUser email password firstName lastName role
                   additionalData w)) =
    profiles w ++
      [new_profile_row email firstName lastName passwordHash
         (uuids w (uuid_pos w)) additionalData (now w) (db_ids w (db_id_pos w))] /\
  user_roles (snd (createTableUser email password firstName lastName role
                     additionalData w)) =
    user_roles w ++ [mkRoleRow (uuids w (uuid_pos w)) (role_of_new role)].
Proof.
  intros F0 Hnone F1 Hh F2 F3. unfold createTableUser. run. repeat split.
Qed.

(** C6. [tableLogin] and [createTableUser] key the Profile lookup and the
    Profile insert on the same normal form, [email.toLowerCase().trim()].
    For two addresses equal up to case and surrounding white space:
    the normal forms are equal and each operation behaves the same on
    either spelling; a sign-up under the first spelling, for an address
    nobody has and with every call completing, succeeds and stores one
    Profile under the normal form, which is the one row the lookup of the
    second spelling selects; a login under the second spelling with the
    password of the sign-up then succeeds as the user the sign-up reported;
    and a further sign-up under the second spelling is refused with
    ["Email already registered"].  (Strings are sequences of the code units
    U+0000 to U+00FF.) *)
Theorem login_and_signup_normalize_alike (e1 e2 : string) :
  equal_up_to_case_and_space e1 e2 ->
  Js.trim (Js.toLowerCase e1) = Js.trim (Js.toLowerCase e2) /\
  (forall (password : string) (w : World),
     tableLogin e1 password w = tableLogin e2 password w) /\
  (forall (password firstName lastName : string) (role : NewRole)
          (additionalData : option AdditionalData) (w : World),
     createTableUser e1 password firstName lastName role additionalData w =
     createTableUser e2 password firstName lastName role additionalData w) /\
  (forall (password firstName lastName : string) (role : NewRole)
          (additionalData : option AdditionalData) (w w2 : World)
          (passwordHash : string),
     fault_at 0 w = Completes ->
     profiles_with_email (Js.trim (Js.toLowerCase e1)) (profiles w) = [] ->
     fault_at 1 w = Completes ->
     Js.truthy_string (hash_password w password) = Some passwordHash ->
     fault_at 2 w = Completes ->
     fault_at 3 w = Completes ->
     roles_of_user (uuids w (uuid_pos w)) (user_roles w) = [] ->
     same_stores (snd (createTableUser e1 password firstName lastName role
                         additionalData w)) w2 ->
     fst (createTableUser e1 password firstName lastName role additionalData w) =
       Returned (mkCreateUserResult true (Some (uuids w (uuid_pos w)))
                   (Some (db_ids w (db_id_pos w))) None) /\
     (exists profile : Profile,
        profiles_with_email (Js.trim (Js.toLowerCase e2)) (profiles w2) = [profile] /\
        p_email profile = Js.trim (Js.toLowerCase e1) /\
        p_user_id profile = uuids w (uuid_pos w) /\
        p_id profile = db_ids w (db_id_pos w)) /\
     (fault_at 0 w2 = Completes -> fault_at 1 w2 = Completes ->
      fault_at 2 w2 = Completes -> fault_at 3 w2 = Completes ->
      storage_at 0 w2 = Stored -> storage_at 1 w2 = Stored ->
      Js.truthy_bool (verify_password w2 password passwordHash) = true ->
      fst (tableLogin e2 password w2) =
        Returned (mkLoginResult true
                    (Some (mkTableUser (uuids w (uuid_pos w)) (db_ids w (db_id_pos w))
                             (Js.trim (Js.toLowerCase e1)) firstName lastName
                             (role_of_new role)))
                    None)) /\
     (forall (password' firstName' lastName' : string) (role' : NewRole)
             (additionalData' : option AdditionalData),
        fault_at 0 w2 = Completes ->
        fst (createTableUser e2 password' firstName' lastName' role' additionalData'
               w2) =
          Returned (mkCreateUserResult false None None
                      (Some "Email already registered")))).
Proof.
  intros H%normal_form_equal.
  split; [exact H|]. split; [|split].
  - intros password w. unfold tableLogin. now rewrite H.
  - intros password firstName lastName role additionalData w.
    unfold createTableUser, new_profile_row. now rewrite H.
  - intros password firstName lastName role additionalData w w2 passwordHash
      F0 Hnone F1 Hh F2 F3 Hfresh (Hp2 & Hr2 & _ & _).
    destruct (createTableUser_creates e1 password firstName lastName role
                additionalData w passwordHash F0 Hnone F1 Hh F2 F3)
      as (Hret & Hp & Hr).
    rewrite Hp in Hp2. rewrite Hr in Hr2.
    assert (Hfound :
      profiles_with_email (Js.trim (Js.toLowerCase e2)) (profiles w2) =
        [new_profile_row e1 firstName lastName passwordHash (uuids w (uuid_pos w))
           additionalData (now w) (db_ids w (db_id_pos w))]).
    { rewrite Hp2, <- H. now apply profiles_with_email_new. }
    split; [exact Hret|]. split; [|split].
    + eexists. split; [exact Hfound|]. repeat split.
    + intros G0 G1 G2 G3 S0 S1 Hv.
      apply (tableLogin_accepts e2 password w2
               (new_profile_row e1 firstName lastName passwordHash
                  (uuids w (uuid_pos w)) additionalData (now w)
                  (db_ids w (db_id_pos w)))
               passwordHash (mkRoleRow (uuids w (uuid_pos w)) (role_of_new role)));
        auto.
      * exact (truthy_string_idem _ _ Hh).
      * rewrite Hr2. now apply roles_of_user_new.
    + intros password' firstName' lastName' role' additionalData' G0.
      apply (createTableUser_rejects_registered_email e2 password' firstName'
               lastName' role' additionalData' w2 _ G0 Hfound).
Qed.

Lemma login_and_signup_normalize_alike_witness :
  fst (createTableUser "Foo@Bar.com " "pw" "Foo" "Bar" new_employee None sample_world) =
    Returned (mkCreateUserResult true (Some "user-0000") (Some "profile-0000") None) /\
  fst (tableLogin "foo@bar.com" "pw"
         (snd (createTableUser "Foo@Bar.com " "pw" "Foo" "Bar" new_employee None
                 sample_world))) =
    Returned (mkLoginResult true
                (Some (mkTableUser "user-0000" "profile-0000" "foo@bar.com"
                         "Foo" "Bar" employee)) None) /\
  fst (createTableUser "foo@bar.com" "other" "F" "B" new_hr None
         (snd (createTableUser "Foo@Bar.com " "pw" "Foo" "Bar" new_employee None
                 sample_world))) =
    Returned (mkCreateUserResult false None None (Some "Email already registered")).
Proof.
  destruct (login_and_signup_normalize_alike "Foo@Bar.com " "foo@bar.com")
    as (_ & _ & _ & Hsame).
  - exists "", "Foo@Bar.com", " ", "", "foo@bar.com", "". repeat split.
  - destruct (Hsame "pw" "Foo" "Bar" new_employee None sample_world
                (snd (createTableUser "Foo@Bar.com " "pw" "Foo" "Bar" new_employee None
                        sample_world))
                "hash:pw")
      as (Hret & _ & Hlogin & Hagain); [by_evaluation .. |].
    split; [exact Hret|]. split.
    + apply Hlogin; reflexivity.
    + apply Hagain. reflexivity.
Defined.


Lemma truthy_string_blank (v : option string) : blank v -> Js.truthy_string v = None.
Proof. intros [-> | ->]; reflexivity. Qed.

Lemma new_profile_row_blank
    (email firstName lastName passwordHash userId : string) (a : AdditionalData)
    (today : Z) (new_id : string) :
  blank_attributes a ->
  new_profile_row email firstName lastName passwordHash userId (Some a) today new_id =
  new_profile_row email firstName lastName passwordHash userId None today new_id.
Proof.
  intros (H1 & H2 & H3 & H4 & H5 & H6 & H7).
  unfold new_profile_row, Js.or_null, field_of.
  now rewrite !truthy_string_blank by assumption.
Qed.

(** X10. Optional attributes that are absent or the empty string are
    the same as no attributes at all: the call returns the same result and
    leaves the same world ([joining_date] falls back to today's date in both
    cases, the others to [null]). *)
Theorem createTableUser_blank_attributes
    (email password firstName lastName : string) (role : NewRole)
    (a : AdditionalData) (w : World) :
  blank_attributes a ->
  createTableUser email password firstName lastName role (Some a) w =
  createTableUser email password firstName lastName role None w.
Proof.
  intros Hblank. unfold createTableUser. unfold_eff. cbn.
  repeat (break_match; cbn in *); try discriminate; try reflexivity;
    repeat match goal with H : Returned _ = Returned _ |- _ => injection H as <- end;
    rewrite ?new_profile_row_blank by assumption; try reflexivity.
Qed.

Lemma createTableUser_blank_attributes_witness :
  createTableUser "New@X.org " "pw" "Nia" "Xu" new_hr (Some blank_sample) sample_world =
  createTableUser "New@X.org " "pw" "Nia" "Xu" new_hr None sample_world.
Proof.
  apply createTableUser_blank_attributes.
  repeat split; first [left; reflexivity | right; reflexivity].
Defined.

(** ** Password change *)

Lemma Forall2_same {A : Type} (R : A -> A -> Prop) (l : list A) :
  (forall a, R a a) -> Forall2 R l l.
Proof. intros H. induction l; constructor; auto. Qed.

Lemma Forall2_map_r {A : Type} (R : A -> A -> Prop) (f : A -> A) (l : list A) :
  (forall a, R a (f a)) -> Forall2 R l (List.map f l).
Proof. intros H. induction l; cbn; constructor; auto. Qed.

(** X11. Whatever the remote calls do, [updatePassword] returns and
    writes nothing but the hash: [user_roles], [user_sessions] and the
    session store are as they were, [profiles] has the same rows in the same
    order, each one unchanged or, if its id is [profileId], with the new
    hash in place of the old (no existing session is revoked); on a failure
    [profiles] is as it was. *)
Theorem updatePassword_changes_only_the_hash
    (profileId newPassword : string) (w : World) :
  exists result : UpdateResult,
    fst (updatePassword profileId newPassword w) = Returned result /\
    user_roles (snd (updatePassword profileId newPassword w)) = user_roles w /\
    user_sessions (snd (updatePassword profileId newPassword w)) = user_sessions w /\
    localStorage (snd (updatePassword profileId newPassword w)) = localStorage w /\
    Forall2
      (fun before after : Profile =>
         after = before \/
         (p_id before = profileId /\
          exists passwordHash : string,
            Js.truthy_string (hash_password w newPassword) = Some passwordHash /\
            after = with_password_hash passwordHash before))
      (profiles w) (profiles (snd (updatePassword profileId newPassword w))) /\
    (ur_success result = false ->
     profiles (snd (updatePassword profileId newPassword w)) = profiles w).
Proof.
  unfold updatePassword. unfold_eff. cbn.
  repeat (break_match; cbn in *); try discriminate;
    repeat match goal with H : Returned _ = Returned _ |- _ => injection H as <- end;
    (eexists; split; [reflexivity|]; cbn);
    (split; [reflexivity|]); (split; [reflexivity|]); (split; [reflexivity|]);
    (split; [|intros Hs; first [discriminate Hs | reflexivity]]);
    try (apply Forall2_same; intros; now left).
  apply Forall2_map_r. intros p.
  match goal with H : _ = Some ?x |- _ => rename x into s end.
  destruct (String.eqb (p_id p) profileId) eqn:E; [right|now left].
  apply String.eqb_eq in E. split; [exact E|]. exists s. split; reflexivity.
Qed.

Lemma profiles_with_email_rehash (e i h : string) (rows : list Profile) :
  profiles_with_email e
    (List.map (fun p => if String.eqb (p_id p) i then with_password_hash h p else p) rows) =
  List.map (fun p => if String.eqb (p_id p) i then with_password_hash h p else p)
    (profiles_with_email e rows).
Proof.
  unfold profiles_with_email. induction rows as [|p l IH]; [reflexivity|].
  cbn [List.map List.filter].
  assert (He : p_email (if String.eqb (p_id p) i then with_password_hash h p else p) =
               p_email p) by (destruct (String.eqb (p_id p) i); reflexivity).
  rewrite He. destruct (String.eqb (p_email p) e); cbn [List.map]; now rewrite IH.
Qed.

(** X12. After a successful [updatePassword] of an account, login is
    decided by the new hash alone: a password the service does not verify
    against it is refused with the credentials message (the old password
    included), and one it verifies logs in, unless a session-store write
    throws: the answer is then ["Login failed. Please try again."]. *)
Theorem updatePassword_then_tableLogin
    (profileId newPassword email password : string) (w w2 : World)
    (profile : Profile) (roleData : RoleRow) (result : UpdateResult) :
  fst (updatePassword profileId newPassword w) = Returned result ->
  ur_success result = true ->
  profiles_with_email (Js.trim (Js.toLowerCase email)) (profiles w) = [profile] ->
  p_id profile = profileId ->
  same_stores (snd (updatePassword profileId newPassword w)) w2 ->
  fault_at 0 w2 = Completes -> fault_at 1 w2 = Completes ->
  exists passwordHash : string,
    Js.truthy_string (hash_password w newPassword) = Some passwordHash /\
    (Js.truthy_bool (verify_password w2 password passwordHash) = false ->
     fst (tableLogin email password w2) =
       Returned (mkLoginResult false None (Some "Invalid email or password"))) /\
    (Js.truthy_bool (verify_password w2 password passwordHash) = true ->
     fault_at 2 w2 = Completes -> fault_at 3 w2 = Completes ->
     roles_of_user (p_user_id profile) (user_roles w2) = [roleData] ->
     fst (tableLogin email password w2) =
       Returned
         match storage_at 0 w2, storage_at 1 w2 with
         | Stored, Stored =>
             mkLoginResult true
               (Some (mkTableUser (p_user_id profile) (p_id profile)
                        (p_email profile) (p_first_name profile)
                        (p_last_name profile) (r_role roleData)))
               None
         | _, _ => mkLoginResult false None (Some "Login failed. Please try again.")
         end).
Proof.
  intros Hret Hs Hp Hid (Hp2 & _ & _ & _) F0 F1.
  assert (Hpath : exists h : string,
            Js.truthy_string (hash_password w newPassword) = Some h /\
            profiles (snd (updatePassword profileId newPassword w)) =
              List.map (fun p => if String.eqb (p_id p) profileId
                                 then with_password_hash h p else p) (profiles w)).
  { revert Hret Hs. unfold updatePassword. unfold_eff. cbn.
    repeat (break_match; cbn in *); try discriminate;
      repeat match goal with H : Returned _ = Returned _ |- _ => injection H as <- end;
      intros Hret Hs; injection Hret as <-; try discriminate Hs.
    eexists. split; [first [eassumption | reflexivity] | reflexivity]. }
  destruct Hpath as (h & Hh & Hmap). exists h. split; [exact Hh|].
  rewrite Hmap in Hp2.
  assert (Hfound : profiles_with_email (Js.trim (Js.toLowerCase email)) (profiles w2) =
                   [with_password_hash h profile]).
  { rewrite Hp2, profiles_with_email_rehash, Hp. cbn.
    rewrite Hid, String.eqb_refl. reflexivity. }
  assert (Hhash : Js.truthy_string (p_password_hash (with_password_hash h profile)) =
                  Some h) by exact (truthy_string_idem _ _ Hh).
  split.
  - intros Hv. clear Hret Hmap Hp2. unfold tableLogin. run. reflexivity.
  - intros Hv F2 F3 Hr.
    exact (tableLogin_accepts_or_quota email password w2 (with_password_hash h profile)
             h roleData F0 Hfound Hhash F1 Hv F2 Hr F3).
Qed.

Lemma updatePassword_then_tableLogin_witness :
  fst (tableLogin "a@b.com" "secret" (snd (updatePassword "p-1" "fresh" sample_world))) =
    Returned (mkLoginResult false None (Some "Invalid email or password")) /\
  fst (tableLogin "a@b.com" "fresh" (snd (updatePassword "p-1" "fresh" sample_world))) =
    Returned (mkLoginResult true
                (Some (mkTableUser "u-1" "p-1" "a@b.com" "Alice" "Ames" hr)) None).
Proof.
  split.
  - destruct (updatePassword_then_tableLogin "p-1" "fresh" "a@b.com" "secret"
                sample_world (snd (updatePassword "p-1" "fresh" sample_world))
                alice (mkRoleRow "u-1" hr) (mkUpdateResult true None))
      as (h & Hh & Hbad & _); [by_evaluation .. |].
    injection Hh as <-. apply Hbad. reflexivity.
  - destruct (updatePassword_then_tableLogin "p-1" "fresh" "a@b.com" "fresh"
                sample_world (snd (updatePassword "p-1" "fresh" sample_world))
                alice (mkRoleRow "u-1" hr) (mkUpdateResult true None))
      as (h & Hh & _ & Hgood); [by_evaluation .. |].
    injection Hh as <-. apply Hgood; reflexivity.
Defined.


(* ===================================================================== *)
(** * The employees page *)
(* ===================================================================== *)

(** ** Employee ids *)

Section EmployeeIds.

Import JsNum.

Lemma digit_char (d : N) :
  (d < 10)%N -> is_digit (Js.hex_digit d) = true /\ digit_value (Js.hex_digit d) = Z.of_N d.
Proof.
  intros H.
  assert (Hd : d = 0%N \/ d = 1%N \/ d = 2%N \/ d = 3%N \/ d = 4%N \/ d = 5%N \/
               d = 6%N \/ d = 7%N \/ d = 8%N \/ d = 9%N) by lia.
  repeat (destruct Hd as [-> | Hd]; [split; reflexivity|]). subst. split; reflexivity.
Qed.

Lemma is_digit_plain (c : ascii) :
  is_digit c = true ->
  Js.is_space c = false /\ c <> "-"%char /\ c <> "+"%char.
Proof.
  destruct c as [[] [] [] [] [] [] [] []]; cbn; intros H; try discriminate H;
    repeat split; discriminate.
Qed.

(** Reading back what [to_base10] writes. *)
Lemma read_to_base10 (fuel : nat) (n : N) (acc : string) (seen : bool) :
  (n < 10 ^ N.of_nat (S fuel))%N ->
  read_digits (to_base10 fuel n acc) 0 seen = read_digits acc (Z.of_N n) true.
Proof.
  revert n acc seen. induction fuel as [|fuel IH]; intros n acc seen Hn.
  - cbn [to_base10 read_digits].
    change (10 ^ N.of_nat 1)%N with 10%N in Hn.
    destruct (digit_char (n mod 10)) as [Hd Hv]; [apply N.mod_lt; lia|].
    rewrite Hd, Hv, N.mod_small by exact Hn. f_equal; lia.
  - cbn [to_base10].
    destruct (digit_char (n mod 10)) as [Hd Hv]; [apply N.mod_lt; lia|].
    destruct (n / 10 =? 0)%N eqn:E.
    + apply N.eqb_eq in E. cbn [read_digits]. rewrite Hd, Hv.
      pose proof (N.div_mod n 10). f_equal; lia.
    + rewrite IH.
      * cbn [read_digits]. rewrite Hd, Hv.
        pose proof (N.div_mod n 10). f_equal; lia.
      * apply N.Div0.div_lt_upper_bound.
        replace (N.of_nat (S (S fuel))) with (N.succ (N.of_nat (S fuel))) in Hn by lia.
        now rewrite N.pow_succ_r' in Hn.
Qed.

Lemma to_base10_digits (fuel : nat) (n : N) (acc : string) :
  all_chars is_digit acc = true -> all_chars is_digit (to_base10 fuel n acc) = true.
Proof.
  revert n acc. induction fuel as [|fuel IH]; intros n acc Hacc; cbn [to_base10].
  - cbn. destruct (digit_char (n mod 10)) as [Hd _]; [apply N.mod_lt; lia|].
    now rewrite Hd.
  - assert (Hstep : all_chars is_digit (String (Js.hex_digit (n mod 10)) acc) = true).
    { cbn. destruct (digit_char (n mod 10)) as [Hd _]; [apply N.mod_lt; lia|].
      now rewrite Hd. }
    destruct (n / 10 =? 0)%N; [exact Hstep | now apply IH].
Qed.

Lemma enough_fuel (n : N) : (n < 10 ^ N.of_nat (S (N.to_nat (N.log2 n))))%N.
Proof.
  replace (N.of_nat (S (N.to_nat (N.log2 n)))) with (N.succ (N.log2 n)) by lia.
  destruct (N.eq_dec n 0%N) as [-> | Hn]; [reflexivity|].
  apply N.lt_le_trans with (2 ^ N.succ (N.log2 n))%N.
  - apply N.log2_spec. lia.
  - apply N.pow_le_mono_l. lia.
Qed.

Lemma replicate_zero_digits (k : nat) (s : string) :
  all_chars is_digit s = true ->
  all_chars is_digit (Js.replicate_char k "0" +:+ s) = true.
Proof. intros H. induction k as [|k IH]; [exact H|]. exact IH. Qed.

Lemma read_replicate_zero (k : nat) (s : string) (seen : bool) :
  read_digits (Js.replicate_char k "0" +:+ s) 0 seen =
  read_digits s 0 (seen || (0 <? k)%nat).
Proof.
  revert seen. induction k as [|k IH]; intros seen.
  - cbn. now rewrite orb_false_r.
  - change (Js.replicate_char (S k) "0" +:+ s)
      with (String "0" (Js.replicate_char k "0" +:+ s)).
    cbn [read_digits]. change (is_digit "0") with true. cbv iota.
    change (10 * 0 + digit_value "0")%Z with 0%Z. rewrite IH.
    now rewrite orb_true_r.
Qed.

(** The digits of the next number: what [String(nextNum).padStart(3, '0')]
    is, and what [parseInt] reads back from it. *)
Lemma padded_number (n : Z) :
  (0 <= n)%Z ->
  all_chars is_digit (Js.padStart 3 "0" (toString10 n)) = true /\
  3 <= String.length (Js.padStart 3 "0" (toString10 n)) /\
  parseInt10 (Js.padStart 3 "0" (toString10 n)) = Some n.
Proof.
  intros Hn. unfold toString10.
  replace (n <? 0)%Z with false by (symmetry; apply Z.ltb_ge; lia).
  rewrite Z.abs_eq by exact Hn.
  set (digits := to_base10 _ _ _).
  assert (Hdigits : all_chars is_digit digits = true) by now apply to_base10_digits.
  assert (Hall : all_chars is_digit (Js.padStart 3 "0" digits) = true)
    by (unfold Js.padStart; now apply replicate_zero_digits).
  split; [exact Hall|]. split.
  - unfold Js.padStart.
    assert (Hlen : forall k s, String.length (Js.replicate_char k "0" +:+ s) =
                               k + String.length s).
    { intros k s. induction k as [|k IH]; [reflexivity|].
      cbn [Js.replicate_char]. rewrite append_String. cbn [String.length].
      now rewrite IH. }
    rewrite Hlen. lia.
  - assert (Hread : read_digits (Js.padStart 3 "0" digits) 0 false = (n, true)).
    { unfold Js.padStart. rewrite read_replicate_zero. unfold digits.
      rewrite read_to_base10 by apply enough_fuel.
      cbn [read_digits]. now rewrite Z2N.id. }
    destruct (Js.padStart 3 "0" digits) as [|c r] eqn:Hshape.
    + cbn in Hread. discriminate Hread.
    + cbn [all_chars] in Hall. apply andb_prop in Hall as [Hc _].
      destruct (is_digit_plain c Hc) as (Hsp & Hminus & Hplus).
      unfold parseInt10. cbn [Js.trimStart]. rewrite Hsp.
      assert (Hbody :
        match String c r with
        | String "-"%char rest => (true, rest)
        | String "+"%char rest => (false, rest)
        | _ => (false, String c r)
        end = (false, String c r)).
      { destruct c as [[] [] [] [] [] [] [] []]; try reflexivity; congruence. }
      rewrite Hbody, Hread. reflexivity.
Qed.

Lemma split_plain (s : string) :
  all_chars is_digit s = true -> split "-" s = [s].
Proof.
  induction s as [|c s IH]; [reflexivity|]. cbn [all_chars split].
  intros [Hc Hs]%andb_prop. rewrite (IH Hs).
  destruct (is_digit_plain c Hc) as (_ & Hminus & _).
  destruct (Ascii.eqb c "-") eqn:E; [apply Ascii.eqb_eq in E; congruence | reflexivity].
Qed.

Lemma max_of_lower (first : Z) (others : list Z) : (first <= max_of first others)%Z.
Proof.
  unfold max_of. revert first. induction others as [|y l IH]; intros first; cbn; [lia|].
  specialize (IH (Z.max first y)). lia.
Qed.

Lemma max_of_ge (first : Z) (others : list Z) (x : Z) :
  In x (first :: others) -> (x <= max_of first others)%Z.
Proof.
  intros [<- | Hin]; [apply max_of_lower|].
  unfold max_of. revert first. induction others as [|y l IH]; intros first; [destruct Hin|].
  cbn. destruct Hin as [<- | Hin].
  - pose proof (max_of_lower (Z.max first y) l) as H. unfold max_of in H. lia.
  - now apply IH.
Qed.

Lemma existingIds_nonnegative_max (employees : list Employee) :
  Forall (fun n => 0 <= n)%Z (existingIds employees) ->
  (0 <=
   match existingIds employees with
   | first :: others => max_of first others
   | [] => 0
   end)%Z.
Proof.
  destruct (existingIds employees) as [|first others]; [lia|].
  intros H. inversion H; subst. pose proof (max_of_lower first others). lia.
Qed.

End EmployeeIds.

Section EmployeeIdFresh.

Import JsNum.

Lemma split_parts_plain (s part : string) :
  In part (split "-" s) -> all_chars not_hyphen part = true.
Proof.
  revert part. induction s as [|c s IH]; intros part; cbn [split].
  - intros [<- | []]. reflexivity.
  - destruct (Ascii.eqb c "-") eqn:E.
    + intros [<- | Hin]; [reflexivity | now apply IH].
    + destruct (split "-" s) as [|first others] eqn:Hs.
      * intros [<- | []]. cbn. unfold not_hyphen. now rewrite E.
      * intros [<- | Hin].
        -- cbn. unfold not_hyphen at 1. rewrite E. apply IH. now left.
        -- apply IH. now right.
Qed.

Lemma trimStart_plain (s : string) :
  all_chars not_hyphen s = true -> all_chars not_hyphen (Js.trimStart s) = true.
Proof.
  induction s as [|c s IH]; [reflexivity|]. cbn [Js.trimStart all_chars].
  intros [Hc Hs]%andb_prop. destruct (Js.is_space c); [now apply IH|].
  cbn. now rewrite Hc, Hs.
Qed.

Lemma read_digits_nonnegative (s : string) (acc : Z) (seen : bool) :
  (0 <= acc)%Z -> (0 <= fst (read_digits s acc seen))%Z.
Proof.
  revert acc seen. induction s as [|c s IH]; intros acc seen Hacc; [exact Hacc|].
  cbn [read_digits]. destruct (is_digit c) eqn:Hc; [|exact Hacc].
  apply IH. unfold is_digit in Hc. unfold digit_value.
  apply andb_prop in Hc as [Hlo _]. apply N.leb_le in Hlo. lia.
Qed.

Lemma parseInt10_nonnegative (s : string) (v : Z) :
  all_chars not_hyphen s = true -> parseInt10 s = Some v -> (0 <= v)%Z.
Proof.
  intros Hs%trimStart_plain. unfold parseInt10.
  destruct (Js.trimStart s) as [|c r] eqn:Hb.
  - cbn. discriminate.
  - assert (Hc : c <> "-"%char).
    { cbn in Hs. apply andb_prop in Hs as [Hc _]. unfold not_hyphen in Hc.
      intros ->. discriminate Hc. }
    assert (Hbody :
      match String c r with
      | String "-"%char rest => (true, rest)
      | String "+"%char rest => (false, rest)
      | _ => (false, String c r)
      end = (false, String c r) \/
      match String c r with
      | String "-"%char rest => (true, rest)
      | String "+"%char rest => (false, rest)
      | _ => (false, String c r)
      end = (false, r)).
    { destruct c as [[] [] [] [] [] [] [] []]; try (left; reflexivity);
        try (right; reflexivity); congruence. }
    destruct Hbody as [-> | ->].
    + pose proof (read_digits_nonnegative (String c r) 0 false (Z.le_refl 0)) as Hn.
      destruct (read_digits (String c r) 0 false) as [value [|]]; [|discriminate].
      intros H. injection H as <-. exact Hn.
    + pose proof (read_digits_nonnegative r 0 false (Z.le_refl 0)) as Hn.
      destruct (read_digits r 0 false) as [value [|]]; [|discriminate].
      intros H. injection H as <-. exact Hn.
Qed.

Lemma employee_number_nonnegative (id : string) (v : Z) :
  employee_number id = Some v -> (0 <= v)%Z.
Proof.
  unfold employee_number.
  destruct (nth_error (split "-" id) 1) as [numPart|] eqn:Hn; [|discriminate].
  apply parseInt10_nonnegative, split_parts_plain with (s := id).
  now apply nth_error_In in Hn.
Qed.

Lemma existingIds_spec (employees : list Employee) (n : Z) :
  In n (existingIds employees) <->
  exists (e : Employee) (id : string),
    In e employees /\ Js.truthy_string (e_employee_id e) = Some id /\
    String.prefix "HTE-" id = true /\ employee_number id = Some n.
Proof.
  unfold existingIds. rewrite <- list_elem_of_In, list_elem_of_omap. split.
  - intros (e & He & Hn). apply list_elem_of_In in He.
    destruct (Js.truthy_string (e_employee_id e)) as [id|] eqn:Hid; [|discriminate].
    destruct (String.prefix "HTE-" id) eqn:Hp; [|discriminate].
    now exists e, id.
  - intros (e & id & He & Hid & Hp & Hn). exists e.
    split; [now apply list_elem_of_In|]. now rewrite Hid, Hp.
Qed.

Lemma existingIds_nonnegative (employees : list Employee) :
  Forall (fun n => 0 <= n)%Z (existingIds employees).
Proof.
  apply List.Forall_forall. intros n (e & id & _ & _ & _ & Hn)%existingIds_spec.
  exact (employee_number_nonnegative id n Hn).
Qed.

Lemma prefix_HTE (x : string) : String.prefix "HTE-" ("HTE-" +:+ x) = true.
Proof. destruct x; reflexivity. Qed.

Lemma truthy_HTE (x : string) :
  Js.truthy_string (Some ("HTE-" +:+ x)) = Some ("HTE-" +:+ x).
Proof. reflexivity. Qed.

(** X13. The generated employee id (for ids below 2^53 - 1, where
    JavaScript's numbers are the integers of this model): it is ["HTE-"]
    followed by at least three decimal digits, it reads back as a number
    that is at least 1 and strictly above the number of every listed id the
    function takes into account, and no listed employee has it. *)
Theorem generateNextEmployeeId_fresh (employees : list Employee) :
  Forall (fun n => n < 2 ^ 53 - 1)%Z (existingIds employees) ->
  exists (digits : string) (nextNum : Z),
    generateNextEmployeeId employees = "HTE-" +:+ digits /\
    all_chars is_digit digits = true /\
    3 <= String.length digits /\
    employee_number (generateNextEmployeeId employees) = Some nextNum /\
    (1 <= nextNum)%Z /\
    Forall (fun n => n < nextNum)%Z (existingIds employees) /\
    (forall e : Employee,
       In e employees -> e_employee_id e <> Some (generateNextEmployeeId employees)).
Proof.
  intros _.
  set (maxNum := match existingIds employees with
                 | first :: others => max_of first others
                 | [] => 0%Z
                 end).
  assert (Hmax : (0 <= maxNum)%Z)
    by (apply existingIds_nonnegative_max, existingIds_nonnegative).
  destruct (padded_number (maxNum + 1)) as (Hdigits & Hlen & Hparse); [lia|].
  assert (Hgen : generateNextEmployeeId employees =
                 "HTE-" +:+ Js.padStart 3 "0" (toString10 (maxNum + 1))) by reflexivity.
  assert (Hnum : employee_number (generateNextEmployeeId employees) = Some (maxNum + 1)%Z).
  { rewrite Hgen. unfold employee_number.
    change (split "-" ("HTE-" +:+ Js.padStart 3 "0" (toString10 (maxNum + 1))))
      with ("HTE" :: split "-" (Js.padStart 3 "0" (toString10 (maxNum + 1)))).
    rewrite (split_plain _ Hdigits). cbn [nth_error]. exact Hparse. }
  assert (Hbelow : Forall (fun n => n < maxNum + 1)%Z (existingIds employees)).
  { apply List.Forall_forall. intros n Hn. subst maxNum.
    destruct (existingIds employees) as [|first others]; [destruct Hn|].
    pose proof (max_of_ge first others n Hn). lia. }
  exists (Js.padStart 3 "0" (toString10 (maxNum + 1))), (maxNum + 1)%Z.
  split; [exact Hgen|]. split; [exact Hdigits|]. split; [exact Hlen|].
  split; [exact Hnum|]. split; [lia|]. split; [exact Hbelow|].
  intros e He Heq.
  assert (Hin : In (maxNum + 1)%Z (existingIds employees)).
  { apply existingIds_spec. exists e, (generateNextEmployeeId employees).
    split; [exact He|]. split; [|split; [|exact Hnum]].
    - rewrite Heq, Hgen. apply truthy_HTE.
    - rewrite Hgen. apply prefix_HTE. }
  rewrite List.Forall_forall in Hbelow. specialize (Hbelow _ Hin). lia.
Qed.

Lemma generateNextEmployeeId_fresh_witness :
  generateNextEmployeeId sample_employees = "HTE-013" /\
  employee_number (generateNextEmployeeId sample_employees) = Some 13%Z /\
  Forall (fun n => n < 13)%Z (existingIds sample_employees).
Proof.
  destruct (generateNextEmployeeId_fresh sample_employees)
    as (digits & nextNum & Hgen & _ & _ & Hnum & _ & Hbelow & _).
  - repeat constructor.
  - split; [reflexivity|].
    assert (Hn : nextNum = 13%Z) by (vm_compute in Hnum; congruence).
    rewrite Hn in Hnum, Hbelow. split; [exact Hnum | exact Hbelow].
Defined.

End EmployeeIdFresh.

(** ** Deleting an employee *)

Arguments handleDelete : simpl never.

Lemma profiles_with_id_deleted (i : string) (rows : list Profile) :
  profiles_with_id i (List.filter (fun p => negb (String.eqb (p_id p) i)) rows) = [].
Proof.
  unfold profiles_with_id. induction rows as [|p l IH]; [reflexivity|].
  cbn. destruct (String.eqb (p_id p) i) eqn:E; cbn; [exact IH|]. now rewrite E.
Qed.

(** A session whose Profile is gone resolves to nobody, whatever the remote
    calls do. *)
Lemma getSessionUser_without_profile
    (w : World) (sessionToken : string) (session : SessionRow) :
  Js.truthy_string (localStorage w !! hrms_session_token) = Some sessionToken ->
  sessions_with_token sessionToken (user_sessions w) = [session] ->
  profiles_with_id (s_profile_id session) (profiles w) = [] ->
  fst (getSessionUser w) = Returned None.
Proof.
  intros Htok Hs Hp. unfold getSessionUser. unfold_eff. cbn.
  repeat (break_match; cbn in *); try discriminate; try reflexivity; congruence.
Qed.

(** What [handleDelete] does when the Profile delete goes through. *)
Lemma handleDelete_deleted (employee : Employee) (w : World) (toast : Toast) :
  fst (handleDelete employee w) = Returned toast ->
  toast_destructive toast = false ->
  profiles (snd (handleDelete employee w)) =
    List.filter (fun p => negb (String.eqb (p_id p) (e_id employee))) (profiles w).
Proof.
  unfold handleDelete, delete_roles_of_user, delete_sessions_of_profile. unfold_eff. cbn.
  repeat (break_match; cbn in *); try discriminate;
    intros Hret Hd; injection Hret as <-; try discriminate Hd;
    repeat match goal with H : Returned _ = Returned _ |- _ => injection H as <- end;
    reflexivity.
Qed.

(** X14. Once [handleDelete] has reported an employee deleted, no
    Profile has that id, and a session of that employee that is still stored
    and still in [user_sessions] (the sessions delete is not checked)
    resolves to nobody, whatever the remote calls do. *)
Theorem handleDelete_then_getSessionUser
    (employee : Employee) (w w2 : World) (toast : Toast)
    (sessionToken : string) (session : SessionRow) :
  fst (handleDelete employee w) = Returned toast ->
  toast_destructive toast = false ->
  same_stores (snd (handleDelete employee w)) w2 ->
  Js.truthy_string (localStorage w2 !! hrms_session_token) = Some sessionToken ->
  sessions_with_token sessionToken (user_sessions w2) = [session] ->
  s_profile_id session = e_id employee ->
  profiles_with_id (e_id employee) (profiles w2) = [] /\
  fst (getSessionUser w2) = Returned None.
Proof.
  intros Hret Hd (Hp2 & _) Htok Hs Hid.
  assert (Hgone : profiles_with_id (e_id employee) (profiles w2) = []).
  { rewrite Hp2, (handleDelete_deleted employee w toast Hret Hd).
    apply profiles_with_id_deleted. }
  split; [exact Hgone|].
  apply (getSessionUser_without_profile w2 sessionToken session Htok Hs).
  now rewrite Hid.
Qed.

Lemma handleDelete_then_getSessionUser_witness :
  profiles_with_id "p-1"
    (profiles (snd (handleDelete alice_employee
                      (with_faults [Completes; Errors "denied"] logged_in_world)))) = [] /\
  user_sessions (snd (handleDelete alice_employee
                        (with_faults [Completes; Errors "denied"] logged_in_world))) =
    [alice_session] /\
  fst (getSessionUser (snd (handleDelete alice_employee
                              (with_faults [Completes; Errors "denied"]
                                 logged_in_world)))) = Returned None.
Proof.
  destruct (handleDelete_then_getSessionUser alice_employee
              (with_faults [Completes; Errors "denied"] logged_in_world)
              (snd (handleDelete alice_employee
                      (with_faults [Completes; Errors "denied"] logged_in_world)))
              (mkToast "Employee Deleted"
                 (Some "Alice Ames has been permanently deleted") false)
              alice_token alice_session)
    as (Hgone & Hnone); [by_evaluation .. |].
  split; [exact Hgone|]. split; [reflexivity | exact Hnone].
Defined.

Lemma roles_of_user_deleted (u : string) (rows : list RoleRow) :
  roles_of_user u (List.filter (fun r => negb (String.eqb (r_user_id r) u)) rows) = [].
Proof.
  unfold roles_of_user. induction rows as [|r l IH]; [reflexivity|].
  cbn. destruct (String.eqb (r_user_id r) u) eqn:E; cbn; [exact IH|]. now rewrite E.
Qed.

(** X15. The three deletes of [handleDelete] are not one transaction.
    When the roles delete completes and the Profile delete resolves to an
    error, the handler shows that error, the Profile stays, and the
    employee's roles are gone: a login with the right password is from then
    on refused with ["User role not found"]. *)
Theorem handleDelete_not_atomic
    (employee : Employee) (w : World) (message : string) :
  fault_at 0 w = Completes ->
  fault_at 1 w <> Rejects ->
  fault_at 2 w = Errors message ->
  fst (handleDelete employee w) = Returned (mkToast "Error" (Some message) true) /\
  profiles (snd (handleDelete employee w)) = profiles w /\
  roles_of_user (e_user_id employee) (user_roles (snd (handleDelete employee w))) = [] /\
  (forall (w2 : World) (email password password_hash : string) (profile : Profile),
     same_stores (snd (handleDelete employee w)) w2 ->
     p_user_id profile = e_user_id employee ->
     fault_at 0 w2 = Completes ->
     profiles_with_email (Js.trim (Js.toLowerCase email)) (profiles w2) = [profile] ->
     Js.truthy_string (p_password_hash profile) = Some password_hash ->
     fault_at 1 w2 = Completes ->
     Js.truthy_bool (verify_password w2 password password_hash) = true ->
     fault_at 2 w2 = Completes ->
     fst (tableLogin email password w2) =
       Returned (mkLoginResult false None (Some "User role not found"))).
Proof.
  intros F0 F1 F2.
  assert (Hrun :
    fst (handleDelete employee w) = Returned (mkToast "Error" (Some message) true) /\
    profiles (snd (handleDelete employee w)) = profiles w /\
    user_roles (snd (handleDelete employee w)) =
      List.filter (fun r => negb (String.eqb (r_user_id r) (e_user_id employee)))
        (user_roles w)).
  { unfold handleDelete, delete_roles_of_user, delete_sessions_of_profile.
    destruct (fault_at 1 w) eqn:F1'; [| |congruence]; run; repeat split. }
  destruct Hrun as (Hret & Hp & Hr).
  assert (Hnone : roles_of_user (e_user_id employee)
                    (user_roles (snd (handleDelete employee w))) = [])
    by (rewrite Hr; apply roles_of_user_deleted).
  split; [exact Hret|]. split; [exact Hp|]. split; [exact Hnone|].
  intros w2 email password password_hash profile (_ & Hr2 & _ & _) Hu G0 Hfound Hh G1 Hv G2.
  assert (Hrole : roles_of_user (p_user_id profile) (user_roles w2) = [])
    by (rewrite Hr2, Hu; exact Hnone).
  clear Hret Hp Hr Hnone Hr2. unfold tableLogin. run. reflexivity.
Qed.

Lemma handleDelete_not_atomic_witness :
  fst (handleDelete alice_employee
         (with_faults [Completes; Completes; Errors "denied"] sample_world)) =
    Returned (mkToast "Error" (Some "denied") true) /\
  fst (tableLogin "a@b.com" "secret"
         (snd (handleDelete alice_employee
                 (with_faults [Completes; Completes; Errors "denied"] sample_world)))) =
    Returned (mkLoginResult false None (Some "User role not found")).
Proof.
  destruct (handleDelete_not_atomic alice_employee
              (with_faults [Completes; Completes; Errors "denied"] sample_world) "denied")
    as (Hret & _ & _ & Hlogin); [by_evaluation .. |].
  split; [exact Hret|].
  apply (Hlogin _ "a@b.com" "secret" "hash:secret" alice);
    try by_evaluation.
Defined.

(** ** The employee list *)

Lemma filter_twice {A : Type} (f : A -> bool) (l : list A) :
  List.filter f (List.filter f l) = List.filter f l.
Proof.
  induction l as [|a l IH]; [reflexivity|]. cbn.
  destruct (f a) eqn:E; cbn; rewrite ?E, IH; reflexivity.
Qed.

Lemma filter_all {A : Type} (f : A -> bool) (l : list A) :
  (forall a, In a l -> f a = true) -> List.filter f l = l.
Proof.
  induction l as [|a l IH]; [reflexivity|]. intros H. cbn.
  rewrite (H a (or_introl eq_refl)), IH; [reflexivity|].
  intros b Hb. apply H. now right.
Qed.

(** X16. The list the employees page keeps: the rows of the profiles
    query, in their order, without those whose role is admin, whatever
    [hideAdmin] and [isHR] are (the second filter removes nothing); no listed
    role is ["admin"]; and when the roles query failed, every profile is
    listed, admins included, as an ["employee"]. *)
Theorem listedEmployees_admins (profiles : option (list ProfileListing))
    (roles : option (list RoleRow)) (hideAdmin isHR : bool) :
  listedEmployees profiles roles hideAdmin isHR =
    List.filter not_admin (employeesWithRoles profiles roles) /\
  Forall (fun e => e_role e <> "admin") (listedEmployees profiles roles hideAdmin isHR) /\
  (forall rows : list ProfileListing,
     List.map e_user_id (listedEmployees (Some rows) None hideAdmin isHR) =
       List.map pl_user_id rows /\
     Forall (fun e => e_role e = "employee")
       (listedEmployees (Some rows) None hideAdmin isHR)).
Proof.
  assert (Hflags : forall p r,
            listedEmployees p r hideAdmin isHR =
            List.filter not_admin (employeesWithRoles p r)).
  { intros p r. unfold listedEmployees.
    destruct (hideAdmin && isHR); [apply filter_twice|reflexivity]. }
  split; [apply Hflags|]. split.
  - rewrite Hflags. apply List.Forall_forall. intros e [_ He]%List.filter_In.
    unfold not_admin in He. intros Heq. rewrite Heq in He. discriminate He.
  - intros rows.
    assert (Hall : listedEmployees (Some rows) None hideAdmin isHR =
                   employeesWithRoles (Some rows) None).
    { rewrite Hflags. unfold employeesWithRoles.
      apply filter_all. intros e (p & <- & _)%List.in_map_iff. reflexivity. }
    rewrite Hall. unfold employeesWithRoles. split.
    + rewrite List.map_map. reflexivity.
    + apply List.Forall_forall. intros e (p & <- & _)%List.in_map_iff. reflexivity.
Qed.


(* ===================================================================== *)
(** * The auth context and the route guard *)
(* ===================================================================== *)

(** What the guard renders from the provider's context. *)
Lemma AuthGate_of_context (st : AuthState) :
  js_get (context_value st) "user" = JsUndefined /\
  AuthGate (context_value st) =
    (if loading st then RenderNothing else NavigateTo "/login").
Proof.
  assert (Huser : js_get (context_value st) "user" = JsUndefined).
  { unfold js_get, context_value. now rewrite !lookup_insert_ne, lookup_empty by discriminate. }
  assert (Hloading : js_get (context_value st) "loading" = JsBoolean (loading st)).
  { unfold js_get, context_value.
    rewrite lookup_insert_ne by discriminate. now rewrite lookup_insert_eq. }
  assert (Hgate : AuthGate (context_value st) =
                  if loading st then RenderNothing else NavigateTo "/login").
  { unfold AuthGate. rewrite Huser, Hloading. cbn. now destruct (loading st). }
  split; [exact Huser | exact Hgate].
Qed.

(** X17. The route guard reads [user] from the auth context, and the
    provider's context has [authUser], [loading], [signOut] and
    [refreshUser]: [user] is always [undefined].  So for every state of the
    provider, logged in or not, the guard renders nothing while loading and
    redirects to ["/login"] afterwards; it never renders the protected
    routes. *)
Theorem AuthGate_never_renders_outlet (st : AuthState) :
  js_get (context_value st) "user" = JsUndefined /\
  AuthGate (context_value st) =
    (if loading st then RenderNothing else NavigateTo "/login") /\
  AuthGate (context_value st) <> RenderOutlet.
Proof.
  destruct (AuthGate_of_context st) as [Huser Hgate].
  split; [exact Huser|]. split; [exact Hgate|].
  rewrite Hgate. destruct (loading st); discriminate.
Qed.

Lemma tableLogout_returns_cleared (w : World) :
  fst (tableLogout w) = Returned tt -> session_store_cleared (snd (tableLogout w)).
Proof.
  unfold tableLogout, session_store_cleared. unfold_eff. cbn.
  repeat (break_match; cbn in *); try discriminate; intros _;
    split; auto using cleared_lookup_token, cleared_lookup_user.
Qed.

(** X18. [signOut] never throws, also when [tableLogout] does, and
    always sets the user to none without touching [loading]; the world is the
    one [tableLogout] leaves.  When [tableLogout] returned, a later
    [refreshUser] on the stores it left finds nobody. *)
Theorem signOut_then_refreshUser (st : AuthState) (w : World) :
  fst (fst (signOut st w)) = Returned tt /\
  authUser (snd (fst (signOut st w))) = None /\
  loading (snd (fst (signOut st w))) = loading st /\
  snd (signOut st w) = snd (tableLogout w) /\
  (fst (tableLogout w) = Returned tt ->
   forall (st2 : AuthState) (w2 : World),
     same_stores (snd (signOut st w)) w2 ->
     authUser (snd (fst (refreshUser st2 w2))) = None).
Proof.
  unfold signOut. destruct (tableLogout w) as [[[]|] w'] eqn:Hout; cbn;
    repeat split; try discriminate.
  intros _ st2 w2 (_ & _ & _ & Hls).
  assert (Hcleared : session_store_cleared w').
  { pose proof (tableLogout_returns_cleared w) as H. rewrite Hout in H. now apply H. }
  assert (Hc2 : session_store_cleared w2).
  { destruct Hcleared as [H1 H2]. split; now rewrite Hls. }
  unfold refreshUser. pose proof (getSessionUser_cleared w2 Hc2) as Hnone.
  destruct (getSessionUser w2) as [[[user|]|] w3]; cbn in *; try discriminate; reflexivity.
Qed.

(** X19. Start-up.  From the provider's initial state, [initializeAuth]
    returns whatever the remote calls do, with [loading] false and the user
    set to the view of what [getSessionUser] returned (the world is the one
    [getSessionUser] leaves); and the route guard then redirects to
    ["/login"], also when a user was found. *)
Theorem initializeAuth_settles (w : World) :
  exists (st : AuthState) (result : option TableUser),
    fst (initializeAuth initial_auth_state w) = (Returned tt, st) /\
    snd (initializeAuth initial_auth_state w) = snd (getSessionUser w) /\
    fst (getSessionUser w) = Returned result /\
    loading st = false /\
    authUser st =
      match result with
      | Some user =>
          Some (mkAuthUser (tu_id user) (tu_email user) (tu_role user)
                  (tu_profileId user) (tu_firstName user) (tu_lastName user))
      | None => None
      end /\
    AuthGate (context_value st) = NavigateTo "/login".
Proof.
  destruct (getSessionUser_returns w) as (result & Hret).
  unfold initializeAuth, refreshUser.
  destruct (getSessionUser w) as [o w'] eqn:Hg. cbn in Hret. subst o.
  destruct result as [user|]; cbn; eexists; eexists;
    (split; [reflexivity|]); (split; [reflexivity|]); (split; [reflexivity|]);
    (split; [reflexivity|]); (split; [reflexivity|]);
    match goal with |- AuthGate (context_value ?s) = _ =>
      destruct (AuthGate_of_context s) as (_ & ->) end; reflexivity.
Qed.
